(** * rviz: [MessageFilterDisplay] (src/rviz/message_filter_display.h)

    A shallow embedding of the templated display base class that wires a
    [message_filters::Subscriber], a [tf2_ros::MessageFilter] and the
    status line of a [Display] together, and the properties of that wiring.

    The class is glue code: every method is a short sequence of calls on
    its collaborators.  The embedding therefore keeps
    - the member variables of the class as a record [State],
    - every call made on a collaborator in a log ([calls]), oldest first,
    - the three ways a method can end ([Outcome]): it returns, a
      [ros::Exception] leaves it, or it dereferences a null pointer. *)

From stdpp Require Import base numbers strings list gmap pretty.

Local Open Scope N_scope.
Local Open Scope string_scope.

(** ** Collaborator vocabulary *)

(** [StatusProperty::Level]. *)
Inductive StatusLevel := Ok | Warn | Error.

(** [ros::TransportHints], as far as the display selects them:
    [reliable()] (TCP) or [unreliable()] (UDP). *)
Inductive TransportHints := Reliable | Unreliable.

(** What a [message_filters::Subscriber] holds while it is subscribed. *)
Record Subscription := {
  sub_topic : string;
  sub_queue_size : N;
  sub_hints : TransportHints
}.

(** The node handle [update_nh_] seen from the display: its answer to a
    request to open a subscription.  [None] is a normal return, [Some what]
    is a [ros::Exception] carrying [what].  The answer belongs to the ROS
    graph, not to the display, and may differ from one call to the next, so
    the methods that subscribe take the node handle as an argument. *)
Definition NodeHandle := string → TransportHints → option string.

(** [std::string::empty()]. *)
Definition std_string_empty (t : string) : bool :=
  match t with
  | EmptyString => true
  | String _ _ => false
  end.

(** [uint32_t] arithmetic: [messages_received_] is a 32-bit unsigned
    counter. *)
Definition uint32_wrap (n : N) : N := n mod 2 ^ 32.

(** [QString::number] on an unsigned value: its decimal representation. *)
Definition QString_number (n : N) : string := pretty n.

(** The pure virtual [processMessage] hook: a concrete display supplies it.
    [U] is whatever state the concrete display keeps for itself. *)
Class MessageHandler (Msg U : Type) := {
  processMessage : Msg → U → U
}.

(** [Display::reset] of the base class is called by [reset]; its body is
    not part of this header.  It acts on the status lines only. *)
Class DisplayBase := {
  Display_reset : gmap string (StatusLevel * string) → gmap string (StatusLevel * string)
}.

Section Model.
Context {Msg U : Type} `{!MessageHandler Msg U} `{!DisplayBase}.

(** The [tf2_ros::MessageFilter] behind [tf_filter_]: its target frame, its
    queue depth and the messages it holds back until their transform is
    known. *)
Record MessageFilter := {
  target_frame : string;
  filter_queue_size : N;
  buffered : list Msg
}.

(** Calls the display makes on its collaborators. *)
Inductive Call :=
| SubSubscribe (topic : string) (queue_size : N) (hints : TransportHints)
| SubUnsubscribe
| FilterNew (frame : string) (queue_size : N)
| FilterConnectInput
| FilterRegisterCallback
| RegisterFilterForTransformStatusCheck
| FilterSetTargetFrame (frame : string)
| FilterClear
| FilterDelete
| DisplayReset
| SetStatus (level : StatusLevel) (name text : string)
| QueueRender
| ProcessMessage (msg : Msg).

(** The members of [MessageFilterDisplay<MessageType>] and of its bases
    that the methods read or write. *)
Record State := {
  context_ : bool;                 (* [context_] is non-null *)
  isEnabled : bool;                (* [Display::isEnabled()] *)
  fixed_frame_ : string;
  statuses : gmap string (StatusLevel * string);
  topic_property_ : string;        (* [topic_property_->getTopicStd()] *)
  unreliable_property_ : bool;     (* [unreliable_property_->getBool()] *)
  sub_ : option Subscription;      (* [None]: not subscribed *)
  tf_filter_ : option MessageFilter; (* [None]: the null pointer *)
  messages_received_ : N;
  derived : U;
  calls : list Call
}.

Definition set_context (v : bool) (s : State) : State :=
  {| context_ := v; isEnabled := isEnabled s; fixed_frame_ := fixed_frame_ s;
     statuses := statuses s; topic_property_ := topic_property_ s;
     unreliable_property_ := unreliable_property_ s; sub_ := sub_ s;
     tf_filter_ := tf_filter_ s; messages_received_ := messages_received_ s;
     derived := derived s; calls := calls s |}.

Definition set_enabled (v : bool) (s : State) : State :=
  {| context_ := context_ s; isEnabled := v; fixed_frame_ := fixed_frame_ s;
     statuses := statuses s; topic_property_ := topic_property_ s;
     unreliable_property_ := unreliable_property_ s; sub_ := sub_ s;
     tf_filter_ := tf_filter_ s; messages_received_ := messages_received_ s;
     derived := derived s; calls := calls s |}.

Definition set_fixed_frame (v : string) (s : State) : State :=
  {| context_ := context_ s; isEnabled := isEnabled s; fixed_frame_ := v;
     statuses := statuses s; topic_property_ := topic_property_ s;
     unreliable_property_ := unreliable_property_ s; sub_ := sub_ s;
     tf_filter_ := tf_filter_ s; messages_received_ := messages_received_ s;
     derived := derived s; calls := calls s |}.

Definition set_statuses (v : gmap string (StatusLevel * string)) (s : State) : State :=
  {| context_ := context_ s; isEnabled := isEnabled s; fixed_frame_ := fixed_frame_ s;
     statuses := v; topic_property_ := topic_property_ s;
     unreliable_property_ := unreliable_property_ s; sub_ := sub_ s;
     tf_filter_ := tf_filter_ s; messages_received_ := messages_received_ s;
     derived := derived s; calls := calls s |}.

Definition set_topic (v : string) (s : State) : State :=
  {| context_ := context_ s; isEnabled := isEnabled s; fixed_frame_ := fixed_frame_ s;
     statuses := statuses s; topic_property_ := v;
     unreliable_property_ := unreliable_property_ s; sub_ := sub_ s;
     tf_filter_ := tf_filter_ s; messages_received_ := messages_received_ s;
     derived := derived s; calls := calls s |}.

Definition set_unreliable (v : bool) (s : State) : State :=
  {| context_ := context_ s; isEnabled := isEnabled s; fixed_frame_ := fixed_frame_ s;
     statuses := statuses s; topic_property_ := topic_property_ s;
     unreliable_property_ := v; sub_ := sub_ s;
     tf_filter_ := tf_filter_ s; messages_received_ := messages_received_ s;
     derived := derived s; calls := calls s |}.

Definition set_sub (v : option Subscription) (s : State) : State :=
  {| context_ := context_ s; isEnabled := isEnabled s; fixed_frame_ := fixed_frame_ s;
     statuses := statuses s; topic_property_ := topic_property_ s;
     unreliable_property_ := unreliable_property_ s; sub_ := v;
     tf_filter_ := tf_filter_ s; messages_received_ := messages_received_ s;
     derived := derived s; calls := calls s |}.

Definition set_tf_filter (v : option MessageFilter) (s : State) : State :=
  {| context_ := context_ s; isEnabled := isEnabled s; fixed_frame_ := fixed_frame_ s;
     statuses := statuses s; topic_property_ := topic_property_ s;
     unreliable_property_ := unreliable_property_ s; sub_ := sub_ s;
     tf_filter_ := v; messages_received_ := messages_received_ s;
     derived := derived s; calls := calls s |}.

Definition set_messages_received (v : N) (s : State) : State :=
  {| context_ := context_ s; isEnabled := isEnabled s; fixed_frame_ := fixed_frame_ s;
     statuses := statuses s; topic_property_ := topic_property_ s;
     unreliable_property_ := unreliable_property_ s; sub_ := sub_ s;
     tf_filter_ := tf_filter_ s; messages_received_ := v;
     derived := derived s; calls := calls s |}.

Definition set_derived (v : U) (s : State) : State :=
  {| context_ := context_ s; isEnabled := isEnabled s; fixed_frame_ := fixed_frame_ s;
     statuses := statuses s; topic_property_ := topic_property_ s;
     unreliable_property_ := unreliable_property_ s; sub_ := sub_ s;
     tf_filter_ := tf_filter_ s; messages_received_ := messages_received_ s;
     derived := v; calls := calls s |}.

Definition log (c : Call) (s : State) : State :=
  {| context_ := context_ s; isEnabled := isEnabled s; fixed_frame_ := fixed_frame_ s;
     statuses := statuses s; topic_property_ := topic_property_ s;
     unreliable_property_ := unreliable_property_ s; sub_ := sub_ s;
     tf_filter_ := tf_filter_ s; messages_received_ := messages_received_ s;
     derived := derived s; calls := calls s ++ [c] |}.

(** ** Control flow of a method *)

Inductive Outcome :=
| Done (s : State)                     (* the method returned *)
| Raised (what : string) (s : State)   (* a [ros::Exception] is in flight *)
| Fault.                               (* a null pointer was dereferenced *)

Definition Method := State → Outcome.

Definition andThen (f g : Method) : Method :=
  λ s, match f s with
       | Done s' => g s'
       | Raised what s' => Raised what s'
       | Fault => Fault
       end.

Definition tryCatch (body : Method) (handler : string → Method) : Method :=
  λ s, match body s with
       | Raised what s' => handler what s'
       | r => r
       end.

Definition ret (f : State → State) : Method := λ s, Done (f s).

Local Notation "f >> g" := (andThen f g) (at level 60, right associativity).


Definition call (c : Call) : Method := ret (log c).

(** ** Collaborators *)

(** [Display::setStatus( level, name, text )]: one status line per name. *)
Definition setStatus (level : StatusLevel) (name text : string) : Method :=
  ret (λ s, log (SetStatus level name text)
              (set_statuses (<[name := (level, text)]> (statuses s)) s)).

(** [Display::reset()], the base-class part of [reset]. *)
Definition Display_reset_base : Method :=
  ret (λ s, log DisplayReset (set_statuses (Display_reset (statuses s)) s)).

(** [context_->queueRender()]. *)
Definition queueRender : Method :=
  λ s, if context_ s then Done (log QueueRender s) else Fault.

(** [sub_.unsubscribe()].  [message_filters::Subscriber] belongs to the ROS
    library message_filters, not to this repository; modelled from the
    library: afterwards the subscriber holds nothing. *)
Definition Subscriber_unsubscribe : Method :=
  ret (λ s, log SubUnsubscribe (set_sub None s)).

(** [sub_.subscribe( nh, topic, queue_size, hints )], of the same library
    and modelled from it:
    [unsubscribe(); if (!topic.empty()) { ... sub_ = nh.subscribe(ops_); }].
    A subscriber holds at most one subscription, so whatever it held is
    given up first.  With an empty topic nothing is asked of the node
    handle and the call returns with nothing held.  Otherwise the node
    handle either opens the new subscription or raises, and after a raise
    the subscriber holds nothing. *)
Definition Subscriber_subscribe (update_nh_ : NodeHandle)
    (topic : string) (queue_size : N) (hints : TransportHints) : Method :=
  λ s, let s1 := log (SubSubscribe topic queue_size hints) (set_sub None s) in
       if std_string_empty topic then Done s1
       else
         match update_nh_ topic hints with
         | None =>
             Done (set_sub (Some {| sub_topic := topic;
                                    sub_queue_size := queue_size;
                                    sub_hints := hints |}) s1)
         | Some what => Raised what s1
         end.

(** [tf_filter_->clear()]: drops everything the filter holds back. *)
Definition MessageFilter_clear : Method :=
  λ s, match tf_filter_ s with
       | Some f =>
           Done (log FilterClear
                   (set_tf_filter (Some {| target_frame := target_frame f;
                                           filter_queue_size := filter_queue_size f;
                                           buffered := [] |}) s))
       | None => Fault
       end.

(** [tf_filter_->setTargetFrame( frame )]. *)
Definition MessageFilter_setTargetFrame (frame : string) : Method :=
  λ s, match tf_filter_ s with
       | Some f =>
           Done (log (FilterSetTargetFrame frame)
                   (set_tf_filter (Some {| target_frame := frame;
                                           filter_queue_size := filter_queue_size f;
                                           buffered := buffered f |}) s))
       | None => Fault
       end.

(** The call of the pure virtual [processMessage( msg )]. *)
Definition processMessage_call (msg : Msg) : Method :=
  ret (λ s, log (ProcessMessage msg) (set_derived (processMessage msg (derived s)) s)).

(** ** The class *)

(** The constructors of [Display], [_RosTopicDisplay] and
    [MessageFilterDisplay]: topic [""], reliable transport, no filter, no
    message counted.  [u] is the initial state of the concrete display. *)
Definition MessageFilterDisplay_new (u : U) : State :=
  {| context_ := false; isEnabled := false; fixed_frame_ := "";
     statuses := ∅; topic_property_ := ""; unreliable_property_ := false;
     sub_ := None; tf_filter_ := None; messages_received_ := 0;
     derived := u; calls := [] |}.

Definition onInitialize : Method :=
  λ s, if context_ s then
         (ret (λ s, log (FilterNew (fixed_frame_ s) 10)
                      (set_tf_filter (Some {| target_frame := fixed_frame_ s;
                                              filter_queue_size := 10;
                                              buffered := [] |}) s))
          >> call FilterConnectInput
          >> call FilterRegisterCallback
          >> call RegisterFilterForTransformStatusCheck) s
       else Fault.

Definition unsubscribe : Method := Subscriber_unsubscribe.

(** [~MessageFilterDisplay()]; [delete] on a null pointer does nothing. *)
Definition MessageFilterDisplay_delete : Method :=
  unsubscribe
  >> ret (λ s, match tf_filter_ s with
               | Some _ => log FilterDelete (set_tf_filter None s)
               | None => s
               end).

Definition reset : Method :=
  Display_reset_base
  >> MessageFilter_clear
  >> ret (set_messages_received 0).

Definition subscribe (update_nh_ : NodeHandle) : Method :=
  λ s, if negb (isEnabled s) then Done s
       else
         tryCatch
           (λ s, let transport_hint :=
                   if unreliable_property_ s then Unreliable else Reliable in
                 (Subscriber_subscribe update_nh_ (topic_property_ s) 10 transport_hint
                  >> setStatus Ok "Topic" "OK") s)
           (λ what, setStatus Error "Topic" ("Error subscribing: " +:+ what))
           s.

Definition updateTopic (update_nh_ : NodeHandle) : Method :=
  unsubscribe
  >> reset
  >> subscribe update_nh_
  >> queueRender.

Definition onEnable (update_nh_ : NodeHandle) : Method := subscribe update_nh_.

Definition onDisable : Method := unsubscribe >> reset.

Definition fixedFrameChanged : Method :=
  (λ s, MessageFilter_setTargetFrame (fixed_frame_ s) s)
  >> reset.

Definition incomingMessage (msg : option Msg) : Method :=
  λ s, match msg with
       | None => Done s
       | Some m =>
           (ret (λ s, set_messages_received (uint32_wrap (messages_received_ s + 1)) s)
            >> (λ s, setStatus Ok "Topic"
                       (QString_number (messages_received_ s) +:+ " messages received") s)
            >> processMessage_call m) s
       end.

(** ** The host framework

    The slots and hooks above are called by the framework ([Display],
    [Property]), whose bodies are not part of this header. *)

(** Modelled from the spec: assignment to the topic property.  The
    constructor of [_RosTopicDisplay] connects the property to the slot
    [updateTopic()], and the subscription is "rebuilt whenever the channel
    name or reliability setting changes". *)
Definition RosTopicProperty_setString (update_nh_ : NodeHandle) (topic : string) : Method :=
  ret (set_topic topic) >> updateTopic update_nh_.

(** Modelled from the spec: assignment to the "Unreliable" property, wired
    to [updateTopic()] in the same way. *)
Definition BoolProperty_setBool (update_nh_ : NodeHandle) (b : bool) : Method :=
  ret (set_unreliable b) >> updateTopic update_nh_.

Definition setTopic (update_nh_ : NodeHandle) (topic datatype : string) : Method :=
  RosTopicProperty_setString update_nh_ topic.

(** Modelled from the spec: the lifecycle hook "initialize" of the host
    framework: it hands the display its context and fixed frame and runs
    [onInitialize]. *)
Definition Display_initialize (frame : string) : Method :=
  ret (λ s, set_fixed_frame frame (set_context true s)) >> onInitialize.

(** Modelled from the spec: the hooks "enable" and "disable": the framework
    sets the enabled flag and runs [onEnable] or [onDisable]. *)
Definition Display_setEnabled (update_nh_ : NodeHandle) (b : bool) : Method :=
  ret (set_enabled b) >> (if b then onEnable update_nh_ else onDisable).

(** Modelled from the spec: a change of the reference coordinate frame: the
    framework stores the frame and runs [fixedFrameChanged]. *)
Definition Display_setFixedFrame (frame : string) : Method :=
  ret (set_fixed_frame frame) >> fixedFrameChanged.

(** ** Lifecycle *)

Inductive Op :=
| Enable
| Disable
| ChangeTopic (topic : string)
| ChangeReliability (unreliable : bool)
| ChangeFixedFrame (frame : string)
| Deliver (msg : option Msg).

Definition perform (update_nh_ : NodeHandle) (op : Op) : Method :=
  match op with
  | Enable => Display_setEnabled update_nh_ true
  | Disable => Display_setEnabled update_nh_ false
  | ChangeTopic topic => setTopic update_nh_ topic ""
  | ChangeReliability b => BoolProperty_setBool update_nh_ b
  | ChangeFixedFrame frame => Display_setFixedFrame frame
  | Deliver msg => incomingMessage msg
  end.

(** A run of lifecycle operations; each comes with the answer the node
    handle would give at that moment. *)
Fixpoint lifecycle (steps : list (NodeHandle * Op)) : Method :=
  match steps with
  | [] => Done
  | (nh, op) :: rest => perform nh op >> lifecycle rest
  end.

(** The states a display can be in between its initialization and its
    teardown. *)
Definition reachable (s : State) : Prop :=
  ∃ (u : U) (frame : string) (steps : list (NodeHandle * Op)),
    (Display_initialize frame >> lifecycle steps) (MessageFilterDisplay_new u) = Done s.

(** ** Observations *)

(** The state a method returned in, if it returned. *)
Definition returned (o : Outcome) : option State :=
  match o with Done s => Some s | _ => None end.

Definition subscription_active (s : State) : bool :=
  match sub_ s with Some _ => true | None => false end.

Definition filter_active (s : State) : bool :=
  match tf_filter_ s with Some _ => true | None => false end.

(** What every lifecycle operation needs and keeps: the context and the
    filter are there. *)
Definition initialized (s : State) : Prop :=
  context_ s = true ∧ filter_active s = true.

(** Filter and subscription are both active, or both torn down. *)
Definition both_or_neither (s : State) : bool :=
  (filter_active s && subscription_active s)
  || (negb (filter_active s) && negb (subscription_active s)).

(** The messages held back by the filter; none when there is no filter. *)
Definition filter_buffer (s : State) : list Msg :=
  match tf_filter_ s with Some f => buffered f | None => [] end.

(** The calls issued between state [s] and a later state [s']. *)
Definition issued (s s' : State) : list Call :=
  drop (length (calls s)) (calls s').

Definition is_sub_call (c : Call) : bool :=
  match c with
  | SubSubscribe _ _ _ | SubUnsubscribe => true
  | _ => false
  end.

(** The calls on the subscriber [sub_], in order. *)
Definition sub_calls (l : list Call) : list Call := List.filter is_sub_call l.

(** The messages handed to [processMessage], in order. *)
Definition handled (l : list Call) : list Msg :=
  omap (λ c, match c with ProcessMessage m => Some m | _ => None end) l.

(** The transport hints selected by the "Unreliable" property. *)
Definition configured_hints (s : State) : TransportHints :=
  if unreliable_property_ s then Unreliable else Reliable.

(** The subscription [subscribe] asks for: the configured topic, a queue of
    10, the configured transport. *)
Definition wanted (s : State) : Subscription :=
  {| sub_topic := topic_property_ s; sub_queue_size := 10;
     sub_hints := configured_hints s |}.

(** The status line "Topic" that [subscribe] writes on an enabled display:
    Ok when the subscriber returns (also when the topic is empty and nothing
    was opened), Error with the text of the exception when the node handle
    raises. *)
Definition open_status (update_nh_ : NodeHandle) (s : State) : StatusLevel * string :=
  if std_string_empty (topic_property_ s) then (Ok, "OK")
  else
    match update_nh_ (topic_property_ s) (configured_hints s) with
    | None => (Ok, "OK")
    | Some what => (Error, "Error subscribing: " +:+ what)
    end.

(** What the subscriber holds after [subscribe] on an enabled display: the
    wanted subscription when the topic is not empty and the node handle
    opens it, nothing otherwise. *)
Definition open_result (update_nh_ : NodeHandle) (s : State) : option Subscription :=
  if std_string_empty (topic_property_ s) then None
  else
    match update_nh_ (topic_property_ s) (configured_hints s) with
    | None => Some (wanted s)
    | Some _ => None
    end.

(** Operations of the lifecycle that run [reset]. *)
Definition resets (op : Op) : bool :=
  match op with
  | Enable | Deliver _ => false
  | Disable | ChangeTopic _ | ChangeReliability _ | ChangeFixedFrame _ => true
  end.

(** The number of non-null messages delivered by a run. *)
Fixpoint delivered (steps : list (NodeHandle * Op)) : N :=
  match steps with
  | [] => 0
  | (_, Deliver (Some _)) :: rest => 1 + delivered rest
  | _ :: rest => delivered rest
  end.

(** The non-null messages a run delivers, in order. *)
Fixpoint delivered_msgs (steps : list (NodeHandle * Op)) : list Msg :=
  match steps with
  | [] => []
  | (_, Deliver (Some m)) :: rest => m :: delivered_msgs rest
  | _ :: rest => delivered_msgs rest
  end.

(** A subscription, when there is one, is the one the configuration asks
    for, and the display is enabled. *)
Definition subscription_coherent (s : State) : Prop :=
  match sub_ s with
  | Some sub => sub = wanted s ∧ isEnabled s = true
  | None => True
  end.

(** The filter is there, targets the fixed frame and has a queue of 10. *)
Definition filter_follows_frame (s : State) : Prop :=
  match tf_filter_ s with
  | Some f => target_frame f = fixed_frame_ s ∧ filter_queue_size f = 10
  | None => False
  end.

(** The members the node handle has no say in. *)
Definition core (s : State)
    : bool * bool * string * string * bool * option MessageFilter * N * U :=
  (context_ s, isEnabled s, fixed_frame_ s, topic_property_ s,
   unreliable_property_ s, tf_filter_ s, messages_received_ s, derived s).

Definition is_subscribe (c : Call) : bool :=
  match c with SubSubscribe _ _ _ => true | _ => false end.

Definition is_enable (op : Op) : bool :=
  match op with Enable => true | _ => false end.

End Model.

Arguments MessageFilter : clear implicits.
Arguments Call : clear implicits.
Arguments State : clear implicits.
Arguments Outcome : clear implicits.
Arguments Method : clear implicits.
Arguments Op : clear implicits.

(** ** A concrete display, to run the model

    Messages are numbers; the concrete display keeps the messages it has
    been handed, and the base class clears the status lines on reset. *)

#[export] Instance recorder : MessageHandler nat (list nat) :=
  {| processMessage := λ (m : nat) (u : list nat), (u ++ [m])%list |}.

#[export] Instance clearing_base : DisplayBase :=
  {| Display_reset := λ _, ∅ |}.

(** A node handle that opens every subscription, and one that refuses. *)
Definition nh_open : NodeHandle := λ _ _, None.
Definition nh_refuse : NodeHandle := λ _ _, Some "no master".

(** An initialized, enabled and subscribed display on topic ["/scan"] that
    has counted [n] messages and whose filter holds back message [7]. *)
Definition running (n : N) : State nat (list nat) :=
  {| context_ := true; isEnabled := true; fixed_frame_ := "map";
     statuses := ∅; topic_property_ := "/scan"; unreliable_property_ := false;
     sub_ := Some {| sub_topic := "/scan"; sub_queue_size := 10; sub_hints := Reliable |};
     tf_filter_ := Some {| target_frame := "map"; filter_queue_size := 10; buffered := [7%nat] |};
     messages_received_ := n; derived := []; calls := [] |}.

(** The same display, enabled but not yet subscribed. *)
Definition pending (n : N) : State nat (list nat) := set_sub None (running n).

(** The same display with the enabled flag cleared. *)
Definition stopped (n : N) : State nat (list nat) := set_enabled false (running n).

(** A display right after [Display_initialize "map"]. *)
Definition fresh : State nat (list nat) :=
  {| context_ := true; isEnabled := false; fixed_frame_ := "map";
     statuses := ∅; topic_property_ := ""; unreliable_property_ := false;
     sub_ := None;
     tf_filter_ := Some {| target_frame := "map"; filter_queue_size := 10; buffered := [] |};
     messages_received_ := 0; derived := [];
     calls := [FilterNew "map" 10; FilterConnectInput; FilterRegisterCallback;
               RegisterFilterForTransformStatusCheck] |}.

(** The freshly initialized display with the enabled flag set: its topic is
    still the empty default. *)
Definition fresh_enabled : State nat (list nat) := set_enabled true fresh.

(** A display that has been constructed and nothing else. *)
Definition constructed : State nat (list nat) := MessageFilterDisplay_new [].

(** * Properties *)

Section Properties.
Context {Msg U : Type} `{!MessageHandler Msg U} `{!DisplayBase}.
Implicit Types (s : State Msg U) (nh : NodeHandle) (m : Msg).

(** ** Bookkeeping of the call log *)

Lemma issued_app s s' (l : list (Call Msg)) :
  calls s' = (calls s ++ l)%list → issued s s' = l.
Proof.
  intros E. unfold issued. rewrite E. apply drop_app_length.
Qed.

Lemma issued_refl s : issued s s = [].
Proof. apply issued_app. symmetry. apply app_nil_r. Qed.

Lemma uint32_wrap_small (n : N) : n < 2 ^ 32 → uint32_wrap n = n.
Proof. intros Hn. unfold uint32_wrap. apply N.mod_small. exact Hn. Qed.

Lemma uint32_wrap_max : uint32_wrap (4294967295 + 1) = 0.
Proof. reflexivity. Qed.

(** Unfolds the methods down to record updates. *)
Ltac run_once :=
  unfold updateTopic, onEnable, onDisable, fixedFrameChanged, reset, subscribe,
    unsubscribe, onInitialize, incomingMessage, MessageFilterDisplay_delete,
    setTopic, RosTopicProperty_setString, BoolProperty_setBool,
    Display_initialize, Display_setEnabled, Display_setFixedFrame,
    Subscriber_subscribe, Subscriber_unsubscribe, MessageFilter_clear,
    MessageFilter_setTargetFrame, Display_reset_base, setStatus, queueRender,
    processMessage_call, tryCatch, call, andThen, ret in *;
  cbn -[uint32_wrap QString_number String.append] in *.
Ltac run := repeat progress run_once.

(** Reads the calls issued off a log of the shape [(l ++ [a]) ++ [b]]. *)
Ltac read_log_eq := cbn; rewrite <- ?app_assoc; reflexivity.
Ltac read_log := apply issued_app; read_log_eq.

(** ** Delivery of a message *)

(** C1.  When the message pointer is null, [incomingMessage] returns at
    once: the state, and with it [messages_received_], is what it was, and
    [processMessage] has not been called. *)
Theorem incomingMessage_null s :
  ∃ s', incomingMessage None s = Done s'
        ∧ s' = s
        ∧ messages_received_ s' = messages_received_ s
        ∧ handled (issued s s') = []
        ∧ derived s' = derived s.
Proof.
  exists s. rewrite issued_refl. repeat split; reflexivity.
Qed.

(** C2 (amended).  For a non-null message, [incomingMessage] returns, has
    called [processMessage] exactly once, with that message, and has
    incremented the 32-bit counter [messages_received_]: by exactly one
    while the counter is below 4294967295, and from 4294967295 round to 0. *)
Theorem incomingMessage_counts_and_forwards s m :
  ∃ s', incomingMessage (Some m) s = Done s'
        ∧ messages_received_ s' = uint32_wrap (messages_received_ s + 1)
        ∧ (messages_received_ s < 4294967295 →
           messages_received_ s' = messages_received_ s + 1)
        ∧ (messages_received_ s = 4294967295 → messages_received_ s' = 0)
        ∧ handled (issued s s') = [m]
        ∧ derived s' = processMessage m (derived s)
        ∧ statuses s' !! "Topic"
          = Some (Ok, QString_number (messages_received_ s') +:+ " messages received").
Proof.
  eexists. split; [run; reflexivity|]. cbn -[uint32_wrap QString_number String.append].
  split; [reflexivity|]. split.
  { intros Hlt. apply uint32_wrap_small. cbn. lia. }
  split.
  { intros ->. apply uint32_wrap_max. }
  split.
  { erewrite issued_app by read_log_eq. reflexivity. }
  split; [reflexivity|]. apply lookup_insert_eq.
Qed.

(** ** Subscribing *)

Lemma std_string_empty_true (t : string) : std_string_empty t = true ↔ t = "".
Proof. destruct t; cbn; split; intros; first [reflexivity | discriminate]. Qed.

Lemma std_string_empty_false (t : string) : std_string_empty t = false ↔ t ≠ "".
Proof. destruct t; cbn; split; intros; first [reflexivity | discriminate | congruence]. Qed.

(** What [subscribe] does on an enabled display: with an empty topic, and
    for either answer of the node handle. *)
Lemma subscribe_enabled nh s :
  isEnabled s = true →
  subscribe nh s =
    let s1 := log (SubSubscribe (topic_property_ s) 10 (configured_hints s))
                (set_sub None s) in
    if std_string_empty (topic_property_ s) then
      Done (log (SetStatus Ok "Topic" "OK")
              (set_statuses (<["Topic" := (Ok, "OK")]> (statuses s)) s1))
    else
      match nh (topic_property_ s) (configured_hints s) with
      | None =>
          Done (log (SetStatus Ok "Topic" "OK")
                  (set_statuses (<["Topic" := (Ok, "OK")]> (statuses s))
                     (set_sub (Some (wanted s)) s1)))
      | Some what =>
          Done (log (SetStatus Error "Topic" ("Error subscribing: " +:+ what))
                  (set_statuses
                     (<["Topic" := (Error, "Error subscribing: " +:+ what)]> (statuses s))
                     s1))
      end.
Proof.
  intros He. unfold subscribe, configured_hints, wanted. rewrite He. run.
  destruct (std_string_empty _); [reflexivity|]. destruct (nh _ _); reflexivity.
Qed.

(** C9.  On a display that is not enabled, [subscribe] returns at once:
    it asks for no subscription, sets no status line and leaves every
    member as it was. *)
Theorem subscribe_disabled_noop nh s :
  isEnabled s = false →
  ∃ s', subscribe nh s = Done s'
        ∧ s' = s
        ∧ issued s s' = []
        ∧ sub_ s' = sub_ s
        ∧ statuses s' = statuses s.
Proof.
  intros He. exists s. unfold subscribe. rewrite He. cbn.
  rewrite issued_refl. repeat split; reflexivity.
Qed.

(** C6.  [subscribe] always returns to its caller: no exception leaves it.
    On an enabled display, when the node handle raises, the subscriber is
    left closed and the only other effect is the status line "Topic" at
    level Error with the text of the exception; when the node handle opens
    the subscription, the status line "Topic" is set to Ok.  (With an empty
    topic the subscriber asks the node handle for nothing: no exception can
    arise, nothing is opened, and the status line is Ok as well.) *)
Theorem subscribe_reports_failure_locally nh s :
  ∃ s', subscribe nh s = Done s'
        ∧ (isEnabled s = true →
           if std_string_empty (topic_property_ s) then
             statuses s' !! "Topic" = Some (Ok, "OK")
             ∧ sub_ s' = None
           else
           match nh (topic_property_ s) (configured_hints s) with
           | None =>
               statuses s' !! "Topic" = Some (Ok, "OK")
               ∧ sub_ s' = Some (wanted s)
           | Some what =>
               statuses s' = <["Topic" := (Error, "Error subscribing: " +:+ what)]> (statuses s)
               ∧ issued s s'
                 = [SubSubscribe (topic_property_ s) 10 (configured_hints s);
                    SetStatus Error "Topic" ("Error subscribing: " +:+ what)]
               ∧ sub_ s' = None
               ∧ tf_filter_ s' = tf_filter_ s
               ∧ messages_received_ s' = messages_received_ s
               ∧ derived s' = derived s
               ∧ isEnabled s' = isEnabled s
               ∧ topic_property_ s' = topic_property_ s
               ∧ unreliable_property_ s' = unreliable_property_ s
           end).
Proof.
  destruct (isEnabled s) eqn:He.
  - rewrite (subscribe_enabled nh s He). cbn.
    destruct (std_string_empty (topic_property_ s));
      [|destruct (nh (topic_property_ s) (configured_hints s)) as [what|]]; eexists;
      (split; [reflexivity|]); intros _; cbn.
    + split; [apply lookup_insert_eq|reflexivity].
    + split; [reflexivity|]. split; [read_log|].
      repeat split; first [reflexivity | exact He].
    + split; [apply lookup_insert_eq|reflexivity].
  - exists s. split; [unfold subscribe; rewrite He; reflexivity|]. discriminate.
Qed.

(** C3 (amended).  [onEnable] on an enabled display asks the subscriber
    exactly once for a subscription, on the configured topic and transport.
    Afterwards exactly one subscription is open, the wanted one, when the
    topic is not empty and the node handle opens it; none is open when the
    topic is empty (status Ok) or when the node handle raises (status
    Error).  [onDisable] closes the subscription with one [unsubscribe] and
    resets [messages_received_] to zero. *)
Theorem enable_subscribes_once_disable_closes nh s_on s_off :
  isEnabled s_on = true →
  filter_active s_off = true →
  (∃ s', onEnable nh s_on = Done s'
         ∧ sub_calls (issued s_on s')
           = [SubSubscribe (topic_property_ s_on) 10 (configured_hints s_on)]
         ∧ sub_ s' = open_result nh s_on
         ∧ (topic_property_ s_on ≠ "" →
            nh (topic_property_ s_on) (configured_hints s_on) = None →
            sub_ s' = Some (wanted s_on))
         ∧ (topic_property_ s_on = "" → sub_ s' = None)
         ∧ (is_Some (nh (topic_property_ s_on) (configured_hints s_on)) →
            sub_ s' = None)
         ∧ statuses s' !! "Topic" = Some (open_status nh s_on))
  ∧ (∃ s', onDisable s_off = Done s'
           ∧ sub_calls (issued s_off s') = [SubUnsubscribe]
           ∧ sub_ s' = None
           ∧ messages_received_ s' = 0
           ∧ filter_buffer s' = []).
Proof.
  intros He Hf. split.
  - unfold onEnable, open_result, open_status.
    rewrite (subscribe_enabled nh s_on He). cbn.
    destruct (std_string_empty (topic_property_ s_on)) eqn:Et;
      [|destruct (nh (topic_property_ s_on) (configured_hints s_on)) as [what|]];
      eexists; (split; [reflexivity|]);
      (split; [erewrite issued_app by read_log_eq; reflexivity|]); cbn;
      (split; [reflexivity|]).
    + apply std_string_empty_true in Et.
      split_and!; [congruence|reflexivity|reflexivity|apply lookup_insert_eq].
    + apply std_string_empty_false in Et.
      split_and!; [discriminate|congruence|reflexivity|apply lookup_insert_eq].
    + apply std_string_empty_false in Et.
      split_and!; [reflexivity|congruence|by intros [? ?]|apply lookup_insert_eq].
  - unfold filter_active in Hf. destruct (tf_filter_ s_off) as [f|] eqn:Ef; [|discriminate].
    eexists. split; [run; rewrite Ef; reflexivity|]. cbn.
    split; [erewrite issued_app by read_log_eq; reflexivity|].
    repeat split; reflexivity.
Qed.

(** ** Reconfiguration *)

(** [reset] on a display that has its filter. *)
Lemma reset_initialized s f :
  tf_filter_ s = Some f →
  reset s =
    Done (set_messages_received 0
            (log FilterClear
               (set_tf_filter (Some {| target_frame := target_frame f;
                                       filter_queue_size := filter_queue_size f;
                                       buffered := [] |})
                  (log DisplayReset (set_statuses (Display_reset (statuses s)) s))))).
Proof. intros Ef. run. rewrite Ef. reflexivity. Qed.

(** Before [onInitialize] there is no filter, and [reset] dereferences the
    null pointer [tf_filter_]. *)
Lemma reset_without_filter s : tf_filter_ s = None → reset s = Fault.
Proof. intros Ef. run. rewrite Ef. reflexivity. Qed.

(** The whole of [updateTopic] on an initialized display. *)
Lemma updateTopic_initialized nh s f :
  context_ s = true →
  tf_filter_ s = Some f →
  ∃ s', updateTopic nh s = Done s'
        ∧ messages_received_ s' = 0
        ∧ tf_filter_ s' = Some {| target_frame := target_frame f;
                                  filter_queue_size := filter_queue_size f;
                                  buffered := [] |}
        ∧ sub_ s' = (if isEnabled s then open_result nh s else None)
        ∧ issued s s'
          = ([SubUnsubscribe; DisplayReset; FilterClear]
             ++ (if isEnabled s
                 then [SubSubscribe (topic_property_ s) 10 (configured_hints s);
                       SetStatus (open_status nh s).1 "Topic" (open_status nh s).2]
                 else [])
             ++ [QueueRender])%list
        ∧ topic_property_ s' = topic_property_ s
        ∧ unreliable_property_ s' = unreliable_property_ s
        ∧ isEnabled s' = isEnabled s
        ∧ context_ s' = true
        ∧ derived s' = derived s.
Proof.
  intros Hc Ef. unfold open_result, open_status, wanted, configured_hints.
  destruct (isEnabled s) eqn:He;
    [destruct (std_string_empty (topic_property_ s)) eqn:Et;
       [|destruct (nh (topic_property_ s) (if unreliable_property_ s then Unreliable else Reliable))
           as [what|] eqn:Enh]|];
    eexists; (split; [run; rewrite Ef; cbn; rewrite He; cbn; rewrite ?Et; cbn;
                     rewrite ?Enh; cbn; rewrite Hc; reflexivity|]);
    cbn; (repeat split; first [reflexivity | assumption | read_log]).
Qed.

(** C10.  On an initialized display, every run of [updateTopic], whether
    the display is enabled or not, clears what the filter holds back and
    resets [messages_received_] to zero, next to the [unsubscribe] and (on
    an enabled display) the [subscribe] it issues; so does every change of
    the topic and of the "Unreliable" property. *)
Theorem updateTopic_clears_and_resets nh s (topic datatype : string) (unreliable : bool) :
  context_ s = true →
  filter_active s = true →
  (∃ s', updateTopic nh s = Done s'
         ∧ filter_buffer s' = []
         ∧ filter_active s' = true
         ∧ messages_received_ s' = 0
         ∧ (∃ rest, issued s s' = [SubUnsubscribe; DisplayReset; FilterClear] ++ rest)%list
         ∧ sub_calls (issued s s')
           = SubUnsubscribe
             :: (if isEnabled s
                 then [SubSubscribe (topic_property_ s) 10 (configured_hints s)]
                 else []))
  ∧ (∃ s', setTopic nh topic datatype s = Done s'
           ∧ filter_buffer s' = []
           ∧ messages_received_ s' = 0)
  ∧ (∃ s', BoolProperty_setBool nh unreliable s = Done s'
           ∧ filter_buffer s' = []
           ∧ messages_received_ s' = 0).
Proof.
  intros Hc Hf. unfold filter_active in Hf.
  destruct (tf_filter_ s) as [f|] eqn:Ef; [|discriminate].
  split; [|split].
  - destruct (updateTopic_initialized nh s f Hc Ef)
      as (s' & Hrun & Hn & Hfl & _ & Hlog & _).
    exists s'. split; [exact Hrun|].
    unfold filter_buffer, filter_active. rewrite Hfl, Hn, Hlog.
    repeat split; [eexists; reflexivity|].
    destruct (isEnabled s); reflexivity.
  - destruct (updateTopic_initialized nh (set_topic topic s) f Hc Ef)
      as (s' & Hrun & Hn & Hfl & _).
    exists s'. unfold filter_buffer. rewrite Hfl, Hn. repeat split. exact Hrun.
  - destruct (updateTopic_initialized nh (set_unreliable unreliable s) f Hc Ef)
      as (s' & Hrun & Hn & Hfl & _).
    exists s'. unfold filter_buffer. rewrite Hfl, Hn. repeat split. exact Hrun.
Qed.

(** C4.  On an initialized, enabled display a run of [updateTopic] issues
    exactly one [unsubscribe] and then exactly one [subscribe], on the
    configured topic and transport.  Hence a change of the topic
    ([setTopic]) resubscribes once, on the new topic, and a change of the
    "Unreliable" property resubscribes once, with the new transport.  (The
    subscriber then holds the new subscription when the new topic is not
    empty and the node handle opens it.) *)
Theorem topic_change_resubscribes_once nh s (topic datatype : string) (unreliable : bool) :
  isEnabled s = true →
  context_ s = true →
  filter_active s = true →
  (∃ s', updateTopic nh s = Done s'
         ∧ sub_calls (issued s s')
           = [SubUnsubscribe; SubSubscribe (topic_property_ s) 10 (configured_hints s)]
         ∧ sub_ s' = open_result nh s)
  ∧ (∃ s', setTopic nh topic datatype s = Done s'
           ∧ topic_property_ s' = topic
           ∧ sub_calls (issued s s')
             = [SubUnsubscribe; SubSubscribe topic 10 (configured_hints s)]
           ∧ (topic ≠ "" →
              nh topic (configured_hints s) = None →
              sub_ s' = Some {| sub_topic := topic; sub_queue_size := 10;
                                sub_hints := configured_hints s |})
           ∧ (topic = "" → sub_ s' = None))
  ∧ (∃ s', BoolProperty_setBool nh unreliable s = Done s'
           ∧ unreliable_property_ s' = unreliable
           ∧ sub_calls (issued s s')
             = [SubUnsubscribe;
                SubSubscribe (topic_property_ s) 10
                  (if unreliable then Unreliable else Reliable)]).
Proof.
  intros He Hc Hf. unfold filter_active in Hf.
  destruct (tf_filter_ s) as [f|] eqn:Ef; [|discriminate].
  split; [|split].
  - destruct (updateTopic_initialized nh s f Hc Ef)
      as (s' & Hrun & _ & _ & Hsub & Hlog & _).
    exists s'. rewrite Hlog, Hsub, He. split; [exact Hrun|]. split; reflexivity.
  - destruct (updateTopic_initialized nh (set_topic topic s) f Hc Ef)
      as (s' & Hrun & _ & _ & Hsub & Hlog & Ht & _).
    exists s'. split; [exact Hrun|]. split; [exact Ht|].
    change (issued (set_topic topic s) s') with (issued s s') in Hlog.
    cbn in Hlog, Hsub. rewrite He in Hlog, Hsub. rewrite Hlog. split; [reflexivity|].
    rewrite Hsub. unfold open_result. cbn.
    change (configured_hints (set_topic topic s)) with (configured_hints s).
    split.
    + intros Hne Hopen. apply std_string_empty_false in Hne.
      rewrite Hne, Hopen. reflexivity.
    + intros ->. reflexivity.
  - destruct (updateTopic_initialized nh (set_unreliable unreliable s) f Hc Ef)
      as (s' & Hrun & _ & _ & _ & Hlog & _ & Hu & _).
    exists s'. split; [exact Hrun|]. split; [exact Hu|].
    change (issued (set_unreliable unreliable s) s') with (issued s s') in Hlog.
    cbn in Hlog. rewrite He in Hlog. rewrite Hlog. reflexivity.
Qed.

(** C5.  On an initialized display [fixedFrameChanged] retargets the
    filter to the fixed frame, clears what the filter holds back and resets
    [messages_received_]; it makes no call on the subscriber, and the
    subscription is what it was. *)
Theorem fixedFrameChanged_keeps_subscription s :
  filter_active s = true →
  ∃ s', fixedFrameChanged s = Done s'
        ∧ filter_buffer s' = []
        ∧ target_frame <$> tf_filter_ s' = Some (fixed_frame_ s)
        ∧ messages_received_ s' = 0
        ∧ sub_ s' = sub_ s
        ∧ subscription_active s' = subscription_active s
        ∧ sub_calls (issued s s') = []
        ∧ issued s s' = [FilterSetTargetFrame (fixed_frame_ s); DisplayReset; FilterClear].
Proof.
  intros Hf. unfold filter_active in Hf.
  destruct (tf_filter_ s) as [f|] eqn:Ef; [|discriminate].
  eexists. split; [run; rewrite Ef; reflexivity|].
  assert (Hlog : ∀ s', calls s' = (calls s ++ [FilterSetTargetFrame (fixed_frame_ s);
                                               DisplayReset; FilterClear])%list →
                       issued s s' = [FilterSetTargetFrame (fixed_frame_ s);
                                      DisplayReset; FilterClear])
    by (intros; by apply issued_app).
  rewrite Hlog by read_log_eq.
  repeat split; reflexivity.
Qed.

(** ** Lifecycle *)

Lemma Display_initialize_new (u : U) (frame : string) :
  ∃ s, Display_initialize frame (MessageFilterDisplay_new u) = Done s
       ∧ initialized s
       ∧ subscription_active s = false.
Proof. eexists. split; [reflexivity|]. repeat split. Qed.

Lemma perform_initialized nh (op : Op Msg) s :
  initialized s →
  ∃ s', perform nh op s = Done s' ∧ initialized s'.
Proof.
  intros [Hc Hf]. unfold filter_active in Hf.
  destruct (tf_filter_ s) as [f|] eqn:Ef; [|discriminate].
  destruct op as [| |topic|b|frame|[m|]]; cbn [perform].
  - unfold Display_setEnabled, andThen, ret, onEnable.
    rewrite subscribe_enabled by reflexivity. cbn.
    destruct (std_string_empty _); [|destruct (nh _ _)]; eexists; (split; [reflexivity|]);
      split; cbn; unfold filter_active; cbn; rewrite ?Ef; done.
  - eexists. split; [run; rewrite Ef; reflexivity|].
    split; [exact Hc|reflexivity].
  - destruct (updateTopic_initialized nh (set_topic topic s) f Hc Ef)
      as (s' & Hrun & _ & Hfl & _ & _ & _ & _ & _ & Hc' & _).
    exists s'. split; [exact Hrun|]. split; [exact Hc'|].
    unfold filter_active. rewrite Hfl. reflexivity.
  - destruct (updateTopic_initialized nh (set_unreliable b s) f Hc Ef)
      as (s' & Hrun & _ & Hfl & _ & _ & _ & _ & _ & Hc' & _).
    exists s'. split; [exact Hrun|]. split; [exact Hc'|].
    unfold filter_active. rewrite Hfl. reflexivity.
  - eexists. split; [run; rewrite Ef; reflexivity|].
    split; [exact Hc|reflexivity].
  - eexists. split; [run; reflexivity|].
    split; cbn; [exact Hc|]. unfold filter_active. cbn. rewrite Ef. reflexivity.
  - exists s. split; [reflexivity|]. split; [exact Hc|].
    unfold filter_active. rewrite Ef. reflexivity.
Qed.

Lemma lifecycle_initialized (steps : list (NodeHandle * Op Msg)) s :
  initialized s →
  ∃ s', lifecycle steps s = Done s' ∧ initialized s'.
Proof.
  revert s. induction steps as [|[nh op] rest IH]; intros s Hs.
  - exists s. split; [reflexivity|exact Hs].
  - destruct (perform_initialized nh op s Hs) as (s1 & Hrun & Hs1).
    destruct (IH s1 Hs1) as (s' & Hrest & Hs').
    exists s'. split; [|exact Hs'].
    cbn [lifecycle]. unfold andThen. rewrite Hrun. exact Hrest.
Qed.

Lemma lifecycle_snoc (steps : list (NodeHandle * Op Msg)) nh (op : Op Msg) s s1 s' :
  lifecycle steps s = Done s1 →
  perform nh op s1 = Done s' →
  lifecycle (steps ++ [(nh, op)]) s = Done s'.
Proof.
  revert s. induction steps as [|[nh0 op0] rest IH]; intros s Hrun Hop.
  - cbn in Hrun. injection Hrun as ->. cbn. unfold andThen. rewrite Hop. reflexivity.
  - cbn [lifecycle app] in *. unfold andThen in *.
    destruct (perform nh0 op0 s) as [s2| |]; try discriminate.
    apply IH; assumption.
Qed.

Lemma reachable_initialized s : reachable s → initialized s.
Proof.
  intros (u & frame & steps & Hrun). unfold andThen in Hrun.
  destruct (Display_initialize_new u frame) as (s0 & Hinit & Hs0 & _).
  rewrite Hinit in Hrun.
  destruct (lifecycle_initialized steps s0 Hs0) as (s' & Hrest & Hs').
  rewrite Hrest in Hrun. injection Hrun as <-. exact Hs'.
Qed.

Lemma reachable_step nh (op : Op Msg) s s' :
  reachable s → perform nh op s = Done s' → reachable s'.
Proof.
  intros (u & frame & steps & Hrun) Hop.
  exists u, frame, (steps ++ [(nh, op)])%list. unfold andThen in *.
  destruct (Display_initialize frame (MessageFilterDisplay_new u)) as [s0| |];
    try discriminate.
  eapply lifecycle_snoc; eassumption.
Qed.

(** C7 (amended).  In every state reachable by initialization followed by
    enable, disable, topic, reliability and frame changes and deliveries,
    the filter is active, whether or not the subscription is: the
    subscription is never active without the filter.  Every lifecycle
    operation returns from such a state.  Disabling closes the subscription
    and clears the filter but keeps the filter; teardown closes the
    subscription and deletes the filter together. *)
Theorem filter_outlives_subscription nh s :
  reachable s →
  filter_active s = true
  ∧ (subscription_active s = true → filter_active s = true)
  ∧ (∀ nh' (op : Op Msg), ∃ s', perform nh' op s = Done s' ∧ reachable s')
  ∧ (∃ s', perform nh Disable s = Done s'
           ∧ subscription_active s' = false
           ∧ filter_buffer s' = []
           ∧ filter_active s' = true)
  ∧ (∃ s', MessageFilterDisplay_delete s = Done s'
           ∧ subscription_active s' = false
           ∧ filter_active s' = false).
Proof.
  intros Hr. pose proof (reachable_initialized s Hr) as [Hc Hf].
  split; [exact Hf|]. split; [intros _; exact Hf|]. split; [|split].
  - intros nh' op.
    destruct (perform_initialized nh' op s (conj Hc Hf)) as (s' & Hrun & _).
    exists s'. split; [exact Hrun|]. eapply reachable_step; eassumption.
  - unfold filter_active in Hf. destruct (tf_filter_ s) as [f|] eqn:Ef; [|discriminate].
    eexists. split; [run; rewrite Ef; reflexivity|]. repeat split.
  - unfold filter_active in Hf. destruct (tf_filter_ s) as [f|] eqn:Ef; [|discriminate].
    eexists. split; [run; rewrite Ef; reflexivity|]. repeat split.
Qed.

(** ** The counter between resets *)

Lemma perform_between_resets nh (op : Op Msg) s :
  resets op = false →
  ∃ s', perform nh op s = Done s'
        ∧ messages_received_ s'
          = match op with
            | Deliver (Some _) => uint32_wrap (messages_received_ s + 1)
            | _ => messages_received_ s
            end.
Proof.
  destruct op as [| |topic|b|frame|[m|]]; cbn [resets]; try discriminate; intros _.
  - cbn [perform]. unfold Display_setEnabled, andThen, ret, onEnable.
    rewrite subscribe_enabled by reflexivity. cbn.
    destruct (std_string_empty _); [|destruct (nh _ _)]; eexists; split; reflexivity.
  - eexists. split; [run; reflexivity|]. reflexivity.
  - exists s. split; reflexivity.
Qed.

(** The methods that manage the subscription do not touch the counter. *)
Lemma subscription_methods_keep_count nh s :
  (∃ s', subscribe nh s = Done s' ∧ messages_received_ s' = messages_received_ s)
  ∧ (∃ s', unsubscribe s = Done s' ∧ messages_received_ s' = messages_received_ s)
  ∧ (∃ s', onEnable nh s = Done s' ∧ messages_received_ s' = messages_received_ s).
Proof.
  assert (Hsub : ∃ s', subscribe nh s = Done s'
                       ∧ messages_received_ s' = messages_received_ s).
  { destruct (isEnabled s) eqn:He.
    - rewrite subscribe_enabled by exact He. cbn.
      destruct (std_string_empty _); [|destruct (nh _ _)]; eexists; split; reflexivity.
    - exists s. unfold subscribe. rewrite He. split; reflexivity. }
  split; [exact Hsub|]. split; [|exact Hsub].
  eexists. split; reflexivity.
Qed.

(** C8 (amended).  A run of lifecycle operations none of which resets
    (enabling, deliveries) returns, and as long as the 32-bit counter does
    not pass 4294967295 it ends with [messages_received_] increased by
    exactly the number of non-null messages delivered: the counter never
    decreases, and it strictly increases when a non-null message was
    delivered. *)
Theorem count_grows_between_resets (steps : list (NodeHandle * Op Msg)) s :
  Forall (λ st, resets st.2 = false) steps →
  messages_received_ s + delivered steps < 2 ^ 32 →
  ∃ s', lifecycle steps s = Done s'
        ∧ messages_received_ s' = messages_received_ s + delivered steps
        ∧ (messages_received_ s ≤ messages_received_ s')%N
        ∧ (0 < delivered steps → messages_received_ s < messages_received_ s')%N.
Proof.
  intros Hall Hbound.
  cut (∃ s', lifecycle steps s = Done s'
             ∧ messages_received_ s' = messages_received_ s + delivered steps).
  { intros (s' & Hrun & Hn). exists s'. rewrite Hn. repeat split; [exact Hrun|lia..]. }
  revert s Hbound. induction Hall as [|[nh op] rest Hop _ IH]; intros s Hbound.
  - exists s. split; [reflexivity|]. cbn. lia.
  - cbn in Hop. destruct (perform_between_resets nh op s Hop) as (s1 & Hrun & Hn1).
    assert (Hstep : messages_received_ s1 + delivered rest
                    = messages_received_ s + delivered ((nh, op) :: rest)).
    { rewrite Hn1. destruct op as [| |topic|b|frame|[m|]]; cbn [delivered]; try lia.
      rewrite uint32_wrap_small; [lia|]. cbn [delivered] in Hbound. lia. }
    destruct (IH s1) as (s' & Hrest & Hn); [lia|].
    exists s'. split; [|lia].
    cbn [lifecycle]. unfold andThen. rewrite Hrun. exact Hrest.
Qed.

(** * Further properties of the methods *)

(** ** One lifecycle operation, in full *)

(** [updateTopic] on an initialized display: the members and the log. *)
Lemma updateTopic_log nh s f :
  context_ s = true →
  tf_filter_ s = Some f →
  ∃ s', updateTopic nh s = Done s'
        ∧ calls s'
          = (calls s
             ++ [SubUnsubscribe; DisplayReset; FilterClear]
             ++ (if isEnabled s
                 then [SubSubscribe (topic_property_ s) 10 (configured_hints s);
                       SetStatus (open_status nh s).1 "Topic" (open_status nh s).2]
                 else [])
             ++ [QueueRender])%list
        ∧ statuses s'
          = (if isEnabled s
             then <["Topic" := open_status nh s]> (Display_reset (statuses s))
             else Display_reset (statuses s))
        ∧ fixed_frame_ s' = fixed_frame_ s.
Proof.
  intros Hc Ef. unfold open_status, configured_hints.
  destruct (isEnabled s) eqn:He;
    [destruct (std_string_empty (topic_property_ s)) eqn:Et;
       [|destruct (nh (topic_property_ s) (if unreliable_property_ s then Unreliable else Reliable))
           as [what|] eqn:Enh]|];
    eexists; (split; [run; rewrite Ef; cbn; rewrite He; cbn; rewrite ?Et; cbn;
                     rewrite ?Enh; cbn; rewrite Hc; reflexivity|]);
    cbn; (split; [rewrite <- ?app_assoc; reflexivity|]); split; reflexivity.
Qed.

Ltac step_facts Ef :=
  unfold initialized, subscription_coherent, filter_follows_frame, filter_active,
    wanted, configured_hints in *;
  cbn -[uint32_wrap QString_number String.append] in *;
  rewrite ?Ef in *;
  split_and!; intros; destruct_and?; split_and?;
  first [reflexivity | assumption | discriminate | idtac].

(** What a lifecycle operation on an initialized display does to the log,
    the handler, the counter, the subscription and the filter. *)
Lemma perform_step nh (op : Op Msg) s :
  initialized s →
  ∃ s', perform nh op s = Done s' ∧ ∃ l : list (Call Msg),
    calls s' = (calls s ++ l)%list
    ∧ initialized s'
    ∧ handled l = match op with Deliver (Some m) => [m] | _ => [] end
    ∧ derived s' = match op with
                   | Deliver (Some m) => processMessage m (derived s)
                   | _ => derived s
                   end
    ∧ messages_received_ s'
      = match op with
        | Deliver (Some _) => uint32_wrap (messages_received_ s + 1)
        | Deliver None | Enable => messages_received_ s
        | _ => 0
        end
    ∧ (subscription_coherent s → subscription_coherent s')
    ∧ (filter_follows_frame s → filter_follows_frame s')
    ∧ (is_enable op = false → isEnabled s = false →
       isEnabled s' = false ∧ List.filter is_subscribe l = []).
Proof.
  intros [Hc Hf]. unfold filter_active in Hf.
  destruct (tf_filter_ s) as [f|] eqn:Ef; [|discriminate].
  destruct op as [| |topic|b|frame|[m|]]; cbn [perform is_enable].
  - unfold Display_setEnabled, andThen, ret, onEnable.
    rewrite subscribe_enabled by reflexivity. cbn.
    destruct (std_string_empty _); [|destruct (nh _ _) as [what|]];
      (eexists; split; [reflexivity|]); cbn; rewrite <- ?app_assoc;
      (eexists; split; [reflexivity|]); step_facts Ef.
  - eexists. split; [run; rewrite Ef; reflexivity|].
    cbn. rewrite <- ?app_assoc. eexists. split; [reflexivity|]. step_facts Ef.
  - destruct (updateTopic_initialized nh (set_topic topic s) f Hc Ef)
      as (s' & Hrun & Hn & Hfl & Hsub & _ & Ht & Hu & He & Hc' & Hd).
    destruct (updateTopic_log nh (set_topic topic s) f Hc Ef)
      as (s'' & Hrun' & Hlog & _ & Hff).
    rewrite Hrun in Hrun'. injection Hrun' as <-.
    exists s'. split; [exact Hrun|]. eexists. split; [exact Hlog|].
    unfold initialized, subscription_coherent, filter_follows_frame, filter_active,
      open_result, wanted, configured_hints in *.
    rewrite Hfl, Hn, Hsub, Ht, Hu, He, Hc', Hd, Hff, ?Ef. cbn.
    destruct (isEnabled s); [destruct (std_string_empty _); [|destruct (nh _ _)]|];
      cbn; split_and!; intros;
      destruct_and?; split_and?; first [reflexivity | assumption | discriminate].
  - destruct (updateTopic_initialized nh (set_unreliable b s) f Hc Ef)
      as (s' & Hrun & Hn & Hfl & Hsub & _ & Ht & Hu & He & Hc' & Hd).
    destruct (updateTopic_log nh (set_unreliable b s) f Hc Ef)
      as (s'' & Hrun' & Hlog & _ & Hff).
    rewrite Hrun in Hrun'. injection Hrun' as <-.
    exists s'. split; [exact Hrun|]. eexists. split; [exact Hlog|].
    unfold initialized, subscription_coherent, filter_follows_frame, filter_active,
      open_result, wanted, configured_hints in *.
    rewrite Hfl, Hn, Hsub, Ht, Hu, He, Hc', Hd, Hff, ?Ef. cbn.
    destruct (isEnabled s); [destruct (std_string_empty _); [|destruct (nh _ _)]|];
      cbn; split_and!; intros;
      destruct_and?; split_and?; first [reflexivity | assumption | discriminate].
  - eexists. split; [run; rewrite Ef; reflexivity|].
    cbn. rewrite <- ?app_assoc. eexists. split; [reflexivity|].
    destruct (sub_ s) eqn:Es; step_facts Ef; rewrite ?Es; first [done | idtac].
  - eexists. split; [run; reflexivity|].
    cbn -[uint32_wrap QString_number String.append]. rewrite <- ?app_assoc.
    eexists. split; [reflexivity|].
    destruct (sub_ s) eqn:Es; step_facts Ef; rewrite ?Es; first [done | idtac].
  - exists s. split; [reflexivity|]. exists [].
    split; [by rewrite app_nil_r|].
    destruct (sub_ s) eqn:Es; step_facts Ef; rewrite ?Es; first [done | idtac].
Qed.

Lemma lifecycle_app (a b : list (NodeHandle * Op Msg)) s :
  lifecycle (a ++ b) s = andThen (lifecycle a) (lifecycle b) s.
Proof.
  revert s. induction a as [|[nh op] rest IH]; intros s; [reflexivity|].
  cbn [lifecycle app]. unfold andThen.
  destruct (perform nh op s) as [s1| |]; [|reflexivity..].
  rewrite IH. reflexivity.
Qed.

(** A whole run on an initialized display. *)
Lemma lifecycle_run (steps : list (NodeHandle * Op Msg)) s :
  initialized s →
  ∃ s', lifecycle steps s = Done s' ∧ ∃ l : list (Call Msg),
    calls s' = (calls s ++ l)%list
    ∧ initialized s'
    ∧ handled l = delivered_msgs steps
    ∧ derived s' = foldl (λ u m, processMessage m u) (derived s) (delivered_msgs steps)
    ∧ (subscription_coherent s → subscription_coherent s')
    ∧ (filter_follows_frame s → filter_follows_frame s')
    ∧ (Forall (λ st, is_enable st.2 = false) steps → isEnabled s = false →
       isEnabled s' = false ∧ List.filter is_subscribe l = []).
Proof.
  revert s. induction steps as [|[nh op] rest IH]; intros s Hs.
  - exists s. split; [reflexivity|]. exists []. rewrite app_nil_r.
    split_and!; done.
  - destruct (perform_step nh op s Hs)
      as (s1 & Hrun & l1 & Hl1 & Hs1 & Hh1 & Hd1 & _ & Hco1 & Hff1 & Hen1).
    destruct (IH s1 Hs1) as (s' & Hrest & l2 & Hl2 & Hs' & Hh2 & Hd2 & Hco2 & Hff2 & Hen2).
    exists s'. split; [cbn [lifecycle]; unfold andThen; rewrite Hrun; exact Hrest|].
    exists (l1 ++ l2)%list. split; [rewrite Hl2, Hl1, app_assoc; reflexivity|].
    split; [exact Hs'|]. unfold handled in *. rewrite omap_app, Hh1, Hh2, Hd2, Hd1.
    split; [destruct op as [| | | | |[m|]]; reflexivity|].
    split; [destruct op as [| | | | |[m|]]; reflexivity|].
    split; [tauto|]. split; [tauto|].
    intros Hall He. apply Forall_cons in Hall as [Hop Hall]. cbn in Hop.
    destruct (Hen1 Hop He) as [He1 Hf1]. destruct (Hen2 Hall He1) as [He2 Hf2].
    split; [exact He2|]. rewrite List.filter_app, Hf1, Hf2. reflexivity.
Qed.

Lemma reachable_invariants s :
  reachable s → initialized s ∧ subscription_coherent s ∧ filter_follows_frame s.
Proof.
  intros (u & frame & steps & Hrun). unfold andThen in Hrun.
  assert (H0 : ∃ s0, Display_initialize frame (MessageFilterDisplay_new u) = Done s0
                     ∧ initialized s0 ∧ subscription_coherent s0
                     ∧ filter_follows_frame s0).
  { eexists. split; [reflexivity|]. repeat split. }
  destruct H0 as (s0 & Hinit & Hs0 & Hco & Hff). rewrite Hinit in Hrun.
  destruct (lifecycle_run steps s0 Hs0) as (s' & Hrest & l & _ & Hs' & _ & _ & Hco' & Hff' & _).
  rewrite Hrest in Hrun. injection Hrun as <-. tauto.
Qed.

(** ** Invariants of the lifecycle *)


(** X7.  In every reachable state the filter targets the fixed frame of the
    display and has a queue of 10. *)
Theorem filter_targets_fixed_frame s :
  reachable s →
  ∃ f, tf_filter_ s = Some f
       ∧ target_frame f = fixed_frame_ s
       ∧ filter_queue_size f = 10.
Proof.
  intros Hr. destruct (reachable_invariants s Hr) as (_ & _ & Hff).
  unfold filter_follows_frame in Hff. destruct (tf_filter_ s) as [f|]; [|contradiction].
  exists f. split; [reflexivity|exact Hff].
Qed.

(** X8.  Over any run of lifecycle operations on an initialized display,
    resets and resubscriptions included, [processMessage] is called with
    exactly the non-null messages delivered, each once and in the order of
    delivery, and the state of the concrete display is the fold of
    [processMessage] over them. *)
Theorem deliveries_forwarded_in_order (steps : list (NodeHandle * Op Msg)) s :
  initialized s →
  ∃ s', lifecycle steps s = Done s'
        ∧ handled (issued s s') = delivered_msgs steps
        ∧ derived s' = foldl (λ u m, processMessage m u) (derived s) (delivered_msgs steps).
Proof.
  intros Hs. destruct (lifecycle_run steps s Hs) as (s' & Hrun & l & Hl & _ & Hh & Hd & _).
  exists s'. rewrite (issued_app s s' l Hl). split_and!; assumption.
Qed.

(** X11.  A reachable display that is not enabled stays unsubscribed over
    any run that does not enable it: topic, reliability and frame changes,
    disabling and deliveries issue no [subscribe] at all. *)
Theorem disabled_display_never_subscribes (steps : list (NodeHandle * Op Msg)) s :
  reachable s →
  isEnabled s = false →
  Forall (λ st, is_enable st.2 = false) steps →
  ∃ s', lifecycle steps s = Done s'
        ∧ isEnabled s' = false
        ∧ List.filter is_subscribe (issued s s') = []
        ∧ sub_ s' = None.
Proof.
  intros Hr He Hall. destruct (reachable_invariants s Hr) as (Hs & Hco & _).
  destruct (lifecycle_run steps s Hs) as (s' & Hrun & l & Hl & _ & _ & _ & Hco' & _ & Hen).
  destruct (Hen Hall He) as [He' Hf].
  exists s'. rewrite (issued_app s s' l Hl). split_and!; try assumption.
  specialize (Hco' Hco). unfold subscription_coherent in Hco'.
  destruct (sub_ s') as [sub0|]; [|reflexivity].
  destruct Hco' as [_ Hen']. rewrite He' in Hen'. discriminate.
Qed.

(** ** The counter, modulo 2^32 *)

Lemma uint32_wrap_lt (n : N) : uint32_wrap n < 2 ^ 32.
Proof. unfold uint32_wrap. apply N.mod_lt. discriminate. Qed.

Lemma uint32_wrap_add_l (a b : N) : uint32_wrap (uint32_wrap a + b) = uint32_wrap (a + b).
Proof. unfold uint32_wrap. apply N.Div0.add_mod_idemp_l. Qed.

Lemma lifecycle_count_modulo (steps : list (NodeHandle * Op Msg)) s :
  Forall (λ st, resets st.2 = false) steps →
  messages_received_ s < 2 ^ 32 →
  ∃ s', lifecycle steps s = Done s'
        ∧ messages_received_ s' = uint32_wrap (messages_received_ s + delivered steps)
        ∧ messages_received_ s' < 2 ^ 32.
Proof.
  intros Hall. revert s. induction Hall as [|[nh op] rest Hop _ IH]; intros s Hlt.
  - exists s. split; [reflexivity|]. cbn [delivered]. rewrite N.add_0_r.
    rewrite uint32_wrap_small by exact Hlt. split; [reflexivity|exact Hlt].
  - cbn in Hop. destruct (perform_between_resets nh op s Hop) as (s1 & Hrun & Hn1).
    assert (Hlt1 : messages_received_ s1 < 2 ^ 32).
    { rewrite Hn1. destruct op as [| | | | |[m|]]; first [apply uint32_wrap_lt | exact Hlt]. }
    destruct (IH s1 Hlt1) as (s' & Hrest & Hn & Hlt').
    exists s'. split; [cbn [lifecycle]; unfold andThen; rewrite Hrun; exact Hrest|].
    split; [|exact Hlt']. rewrite Hn, Hn1.
    destruct op as [| |topic|b|frame|[m|]]; cbn [delivered]; try reflexivity.
    rewrite uint32_wrap_add_l. f_equal. lia.
Qed.

(** X9.  Over a run of lifecycle operations none of which resets, the
    counter ends as the start value plus the number of non-null messages
    delivered, modulo 2^32, and so stays a 32-bit value. *)
Theorem count_modulo_between_resets (steps : list (NodeHandle * Op Msg)) s :
  Forall (λ st, resets st.2 = false) steps →
  messages_received_ s < 2 ^ 32 →
  ∃ s', lifecycle steps s = Done s'
        ∧ messages_received_ s' = uint32_wrap (messages_received_ s + delivered steps)
        ∧ messages_received_ s' < 2 ^ 32.
Proof. apply lifecycle_count_modulo. Qed.

(** X10.  Whatever happened before, once an operation that resets has run
    on an initialized display, the counter is the number of non-null
    messages delivered since, modulo 2^32. *)
Theorem count_since_last_reset
    (pre post : list (NodeHandle * Op Msg)) nh (op : Op Msg) s :
  initialized s →
  resets op = true →
  Forall (λ st, resets st.2 = false) post →
  ∃ s', lifecycle (pre ++ (nh, op) :: post) s = Done s'
        ∧ messages_received_ s' = uint32_wrap (delivered post).
Proof.
  intros Hs Hop Hpost.
  destruct (lifecycle_run pre s Hs) as (s1 & Hrun1 & _ & _ & Hs1 & _).
  destruct (perform_step nh op s1 Hs1) as (s2 & Hrun2 & _ & _ & _ & _ & _ & Hn2 & _).
  assert (H0 : messages_received_ s2 = 0).
  { rewrite Hn2. destruct op as [| | | | |[m|]]; first [reflexivity | discriminate]. }
  destruct (lifecycle_count_modulo post s2 Hpost) as (s' & Hrun3 & Hn & _).
  { rewrite H0. reflexivity. }
  exists s'. split; [|rewrite Hn, H0; reflexivity].
  rewrite lifecycle_app. unfold andThen. rewrite Hrun1.
  cbn [lifecycle]. unfold andThen. rewrite Hrun2. exact Hrun3.
Qed.

(** ** Edge behaviour of single methods *)

(** X3.  [incomingMessage] does not look at the enabled flag or at the
    subscription: a non-null message is counted and handed on in every
    state.  It writes the counter, the status line "Topic" (before the
    handler runs) and the state of the concrete display, and nothing else:
    subscription, filter, configuration and every other status line are
    what they were. *)
Theorem incomingMessage_delivery_frame s m :
  ∃ s', incomingMessage (Some m) s = Done s'
        ∧ issued s s'
          = [SetStatus Ok "Topic"
               (QString_number (uint32_wrap (messages_received_ s + 1))
                +:+ " messages received");
             ProcessMessage m]
        ∧ sub_ s' = sub_ s
        ∧ tf_filter_ s' = tf_filter_ s
        ∧ isEnabled s' = isEnabled s
        ∧ topic_property_ s' = topic_property_ s
        ∧ unreliable_property_ s' = unreliable_property_ s
        ∧ fixed_frame_ s' = fixed_frame_ s
        ∧ (∀ name, name ≠ "Topic" → statuses s' !! name = statuses s !! name).
Proof.
  eexists. split; [run; reflexivity|].
  cbn -[uint32_wrap QString_number String.append].
  split; [apply issued_app; cbn -[uint32_wrap QString_number String.append];
          rewrite <- ?app_assoc; reflexivity|].
  split_and!; try reflexivity.
  intros name Hne. apply lookup_insert_ne. congruence.
Qed.

(** X1.  As long as [tf_filter_] is the null pointer the constructor left,
    every method that runs [reset] dereferences it: [reset], [onDisable],
    [updateTopic] and [fixedFrameChanged].  The methods that do not reset
    ([onEnable], [incomingMessage]) return. *)
Theorem reset_needs_the_filter nh s (msg : option Msg) :
  tf_filter_ s = None →
  reset s = Fault
  ∧ onDisable s = Fault
  ∧ updateTopic nh s = Fault
  ∧ fixedFrameChanged s = Fault
  ∧ is_Some (returned (onEnable nh s))
  ∧ is_Some (returned (incomingMessage msg s)).
Proof.
  intros Ef. split_and!.
  - apply reset_without_filter, Ef.
  - run. rewrite Ef. reflexivity.
  - run. rewrite Ef. reflexivity.
  - run. rewrite Ef. reflexivity.
  - destruct (subscription_methods_keep_count nh s) as (_ & _ & s' & -> & _). by eexists.
  - destruct msg as [m|]; run; by eexists.
Qed.

(** X2.  The destructor returns from every state, also from one that was
    never initialized: it unsubscribes first and then deletes the filter if
    there is one; afterwards there is neither subscription nor filter, and
    the counter, the status lines and the concrete display are untouched. *)
Theorem destructor_releases_both s :
  ∃ s', MessageFilterDisplay_delete s = Done s'
        ∧ sub_ s' = None
        ∧ tf_filter_ s' = None
        ∧ issued s s' = SubUnsubscribe :: (if filter_active s then [FilterDelete] else [])
        ∧ messages_received_ s' = messages_received_ s
        ∧ statuses s' = statuses s
        ∧ derived s' = derived s.
Proof.
  unfold filter_active. destruct (tf_filter_ s) as [f|] eqn:Ef;
    (eexists; split; [run; rewrite Ef; reflexivity|]);
    (split_and!; [reflexivity| |read_log|reflexivity..]).
  - reflexivity.
  - cbn. exact Ef.
Qed.

(** ** Operations in sequence *)

(** X4.  On an initialized, enabled display [onEnable] followed by
    [onDisable] returns with no subscription left, whatever the node handle
    answered: one [subscribe], then one [unsubscribe], the filter cleared
    and the counter at zero. *)
Theorem enable_then_disable_leaves_nothing_open nh s :
  isEnabled s = true →
  filter_active s = true →
  ∃ s', andThen (onEnable nh) onDisable s = Done s'
        ∧ sub_ s' = None
        ∧ sub_calls (issued s s')
          = [SubSubscribe (topic_property_ s) 10 (configured_hints s); SubUnsubscribe]
        ∧ filter_buffer s' = []
        ∧ messages_received_ s' = 0.
Proof.
  intros He Hf. unfold filter_active in Hf.
  destruct (tf_filter_ s) as [f|] eqn:Ef; [|discriminate].
  unfold andThen at 1, onEnable. rewrite (subscribe_enabled nh s He). cbn.
  destruct (std_string_empty (topic_property_ s));
    [|destruct (nh (topic_property_ s) (configured_hints s)) as [what|]];
    (eexists; split; [run; rewrite Ef; reflexivity|]);
    unfold filter_buffer; cbn;
    (split_and!; [reflexivity| |reflexivity..]);
    (erewrite issued_app by read_log_eq); reflexivity.
Qed.

(** X5.  A refused subscription is not sticky.  On an initialized, enabled
    display with a non-empty topic, whatever a first [updateTopic] got from
    the node handle, a second [updateTopic] that finds the node handle
    willing ends subscribed as configured, with the status line "Topic" at
    Ok. *)
Theorem resubscribing_recovers nh1 nh2 s :
  isEnabled s = true →
  context_ s = true →
  filter_active s = true →
  topic_property_ s ≠ "" →
  nh2 (topic_property_ s) (configured_hints s) = None →
  ∃ s', andThen (updateTopic nh1) (updateTopic nh2) s = Done s'
        ∧ sub_ s' = Some (wanted s)
        ∧ statuses s' !! "Topic" = Some (Ok, "OK")
        ∧ messages_received_ s' = 0.
Proof.
  intros He Hc Hf Hne Hopen. unfold filter_active in Hf.
  apply std_string_empty_false in Hne.
  destruct (tf_filter_ s) as [f|] eqn:Ef; [|discriminate].
  destruct (updateTopic_initialized nh1 s f Hc Ef)
    as (s1 & Hrun1 & _ & Hf1 & _ & _ & Ht1 & Hu1 & He1 & Hc1 & _).
  destruct (updateTopic_initialized nh2 s1 _ Hc1 Hf1)
    as (s2 & Hrun2 & Hn2 & _ & Hsub2 & _).
  destruct (updateTopic_log nh2 s1 _ Hc1 Hf1) as (s2' & Hrun2' & _ & Hst2 & _).
  rewrite Hrun2 in Hrun2'. injection Hrun2' as <-.
  assert (Hopen1 : nh2 (topic_property_ s1) (configured_hints s1) = None).
  { unfold configured_hints in *. rewrite Ht1, Hu1. exact Hopen. }
  exists s2. unfold andThen. rewrite Hrun1. split; [exact Hrun2|].
  rewrite Hsub2, Hst2, He1, He. unfold open_result, open_status.
  rewrite Ht1, Hne, <- Ht1, Hopen1.
  split_and!; [|apply lookup_insert_eq|exact Hn2].
  unfold wanted, configured_hints. rewrite Ht1, Hu1. reflexivity.
Qed.

(** ** What the node handle cannot influence *)

Lemma perform_core nh1 nh2 (op : Op Msg) sa sb :
  initialized sa →
  core sa = core sb →
  ∃ sa' sb', perform nh1 op sa = Done sa'
             ∧ perform nh2 op sb = Done sb'
             ∧ initialized sa'
             ∧ core sa' = core sb'.
Proof.
  intros [Hc Hf] Hcore. unfold filter_active in Hf.
  destruct (tf_filter_ sa) as [f|] eqn:Efa; [|discriminate].
  unfold core in Hcore. rewrite Efa, Hc in Hcore.
  injection Hcore as Hcb Heb Hfb Htb Hub Efb Hnb Hdb.
  symmetry in Hcb, Efb.
  destruct op as [| |topic|b|frame|[m|]]; cbn [perform].
  - unfold Display_setEnabled, andThen, ret, onEnable.
    rewrite !subscribe_enabled by reflexivity. cbn.
    replace (topic_property_ sb) with (topic_property_ sa) by exact Htb.
    destruct (std_string_empty _); [|destruct (nh1 _ _), (nh2 _ _)];
      eexists _, _; (split; [reflexivity|]);
      (split; [reflexivity|]); unfold initialized, filter_active, core; cbn;
      rewrite ?Efa, ?Efb, ?Hc, ?Hcb; (split; [done|]); congruence.
  - eexists _, _. split; [run; rewrite Efa; reflexivity|].
    split; [run; rewrite Efb; reflexivity|].
    unfold initialized, filter_active, core; cbn.
    rewrite ?Hc, ?Hcb. split; [done|]. congruence.
  - destruct (updateTopic_initialized nh1 (set_topic topic sa) f Hc Efa)
      as (sa' & Hra & Hna & Hfa & _ & _ & Hta & Hua & Hea & Hca & Hda).
    destruct (updateTopic_log nh1 (set_topic topic sa) f Hc Efa)
      as (sa'' & Hra' & _ & _ & Hffa).
    rewrite Hra in Hra'. injection Hra' as <-.
    destruct (updateTopic_initialized nh2 (set_topic topic sb) f Hcb Efb)
      as (sb' & Hrb & Hnb' & Hfb' & _ & _ & Htb' & Hub' & Heb' & Hcb' & Hdb').
    destruct (updateTopic_log nh2 (set_topic topic sb) f Hcb Efb)
      as (sb'' & Hrb' & _ & _ & Hffb).
    rewrite Hrb in Hrb'. injection Hrb' as <-.
    exists sa', sb'. split; [exact Hra|]. split; [exact Hrb|].
    unfold initialized, filter_active, core.
    rewrite Hna, Hfa, Hta, Hua, Hea, Hca, Hda, Hffa, Hnb', Hfb', Htb', Hub', Heb', Hcb',
      Hdb', Hffb. cbn. split; [done|]. congruence.
  - destruct (updateTopic_initialized nh1 (set_unreliable b sa) f Hc Efa)
      as (sa' & Hra & Hna & Hfa & _ & _ & Hta & Hua & Hea & Hca & Hda).
    destruct (updateTopic_log nh1 (set_unreliable b sa) f Hc Efa)
      as (sa'' & Hra' & _ & _ & Hffa).
    rewrite Hra in Hra'. injection Hra' as <-.
    destruct (updateTopic_initialized nh2 (set_unreliable b sb) f Hcb Efb)
      as (sb' & Hrb & Hnb' & Hfb' & _ & _ & Htb' & Hub' & Heb' & Hcb' & Hdb').
    destruct (updateTopic_log nh2 (set_unreliable b sb) f Hcb Efb)
      as (sb'' & Hrb' & _ & _ & Hffb).
    rewrite Hrb in Hrb'. injection Hrb' as <-.
    exists sa', sb'. split; [exact Hra|]. split; [exact Hrb|].
    unfold initialized, filter_active, core.
    rewrite Hna, Hfa, Hta, Hua, Hea, Hca, Hda, Hffa, Hnb', Hfb', Htb', Hub', Heb', Hcb',
      Hdb', Hffb. cbn. split; [done|]. congruence.
  - eexists _, _. split; [run; rewrite Efa; reflexivity|].
    split; [run; rewrite Efb; reflexivity|].
    unfold initialized, filter_active, core; cbn.
    rewrite ?Hc, ?Hcb. split; [done|]. congruence.
  - eexists _, _. split; [run; reflexivity|]. split; [run; reflexivity|].
    unfold initialized, filter_active, core;
      cbn -[uint32_wrap QString_number String.append].
    rewrite ?Efa, ?Efb, ?Hc, ?Hcb. split; [done|]. congruence.
  - exists sa, sb. split; [reflexivity|]. split; [reflexivity|].
    unfold initialized, filter_active, core. rewrite Efa, Efb, Hc, Hcb.
    split; [done|]. congruence.
Qed.

(** X12.  The answers of the node handle reach the subscription and the
    status lines only.  Two runs of the same operations on an initialized
    display, under any two sequences of answers, both return and agree on
    the counter, the filter, the configuration and the state of the
    concrete display: a refused subscription never costs a message. *)
Theorem node_handle_cannot_disturb_delivery
    (steps1 steps2 : list (NodeHandle * Op Msg)) s :
  initialized s →
  steps1.*2 = steps2.*2 →
  ∃ s1 s2, lifecycle steps1 s = Done s1
           ∧ lifecycle steps2 s = Done s2
           ∧ messages_received_ s1 = messages_received_ s2
           ∧ tf_filter_ s1 = tf_filter_ s2
           ∧ derived s1 = derived s2
           ∧ isEnabled s1 = isEnabled s2
           ∧ topic_property_ s1 = topic_property_ s2
           ∧ unreliable_property_ s1 = unreliable_property_ s2.
Proof.
  intros Hs Hops.
  cut (∀ sa sb, initialized sa → core sa = core sb →
         ∃ s1 s2, lifecycle steps1 sa = Done s1 ∧ lifecycle steps2 sb = Done s2
                  ∧ core s1 = core s2).
  { intros Hcut. destruct (Hcut s s Hs eq_refl) as (s1 & s2 & H1 & H2 & Hcore).
    exists s1, s2. unfold core in Hcore. injection Hcore as ????????.
    split_and!; assumption. }
  clear s Hs. revert steps2 Hops.
  induction steps1 as [|[nh1 op1] rest1 IH]; intros [|[nh2 op2] rest2] Hops sa sb Hsa Hcore;
    try discriminate.
  - exists sa, sb. split_and!; done.
  - cbn in Hops. injection Hops as -> Hops.
    destruct (perform_core nh1 nh2 op2 sa sb Hsa Hcore)
      as (sa' & sb' & Hra & Hrb & Hsa' & Hcore').
    destruct (IH rest2 Hops sa' sb' Hsa' Hcore') as (s1 & s2 & H1 & H2 & Hc12).
    exists s1, s2. cbn [lifecycle]. unfold andThen. rewrite Hra, Hrb.
    split_and!; assumption.
Qed.

(** X13.  A null pointer delivered anywhere in a run is invisible: the run
    ends exactly as the run without it. *)
Theorem null_delivery_is_invisible (pre post : list (NodeHandle * Op Msg)) nh s :
  lifecycle (pre ++ (nh, Deliver None) :: post) s = lifecycle (pre ++ post) s.
Proof.
  rewrite !lifecycle_app. unfold andThen.
  destruct (lifecycle pre s) as [s1| |]; reflexivity.
Qed.

End Properties.

(** * The model at work on the concrete display *)

(** C1 at work: a null pointer delivered to a running display. *)
Lemma incomingMessage_null_running :
  ∃ s', incomingMessage None (running 41) = Done s'
        ∧ s' = running 41
        ∧ messages_received_ s' = 41
        ∧ handled (issued (running 41) s') = []
        ∧ derived s' = [].
Proof. exact (incomingMessage_null (running 41)). Defined.

(** C2 at work: message 5 delivered to a display that has counted 41. *)
Lemma incomingMessage_running :
  ∃ s', incomingMessage (Some 5%nat) (running 41) = Done s'
        ∧ messages_received_ s' = uint32_wrap (41 + 1)
        ∧ (41 < 4294967295 → messages_received_ s' = 41 + 1)
        ∧ (41 = 4294967295 → messages_received_ s' = 0)
        ∧ handled (issued (running 41) s') = [5%nat]
        ∧ derived s' = [5%nat]
        ∧ statuses s' !! "Topic"
          = Some (Ok, QString_number (messages_received_ s') +:+ " messages received").
Proof. exact (incomingMessage_counts_and_forwards (running 41) 5%nat). Defined.

(** C2, as stated, fails at the top of the counter: after 4294967295
    messages the next one takes [messages_received_] to 0, not to
    4294967296. *)
Lemma incomingMessage_wraps_at_uint32_max :
  messages_received_ <$> returned (incomingMessage (Some 5%nat) (running 4294967295))
  = Some 0
  ∧ messages_received_ <$> returned (incomingMessage (Some 5%nat) (running 4294967295))
    ≠ Some (messages_received_ (running 4294967295) + 1).
Proof. split; [reflexivity|discriminate]. Qed.

(** C3 at work: enabling the display on ["/scan"] that is not yet
    subscribed, and disabling the running one. *)
Lemma enable_disable_running :
  isEnabled (pending 3) = true
  ∧ filter_active (stopped 3) = true
  ∧ sub_ (pending 3) = None
  ∧ (∃ s', onEnable nh_open (pending 3) = Done s'
           ∧ sub_calls (issued (pending 3) s') = [SubSubscribe "/scan" 10 Reliable]
           ∧ sub_ s' = Some {| sub_topic := "/scan"; sub_queue_size := 10;
                               sub_hints := Reliable |})
  ∧ (∃ s', onDisable (stopped 3) = Done s'
           ∧ sub_calls (issued (stopped 3) s') = [SubUnsubscribe]
           ∧ sub_ s' = None
           ∧ messages_received_ s' = 0
           ∧ filter_buffer s' = []).
Proof.
  split; [reflexivity|]. split; [reflexivity|]. split; [reflexivity|].
  destruct (enable_subscribes_once_disable_closes nh_open (pending 3) (stopped 3)
              eq_refl eq_refl) as ((s' & Hrun & Hcalls & Hsub & _) & Hoff).
  split; [|exact Hoff].
  exists s'. split; [exact Hrun|]. split; [exact Hcalls|exact Hsub].
Defined.

(** C3, as stated, fails in two ways.  When the node handle raises,
    [onEnable] returns with no subscription open and the status line at
    Error.  On the display that is enabled with the empty default topic the
    subscriber opens nothing at all, although the status line reads Ok. *)
Lemma enable_without_subscription :
  isEnabled (pending 3) = true
  ∧ subscription_active <$> returned (onEnable nh_refuse (pending 3)) = Some false
  ∧ (λ s, statuses s !! "Topic") <$> returned (onEnable nh_refuse (pending 3))
    = Some (Some (Error, "Error subscribing: no master"))
  ∧ isEnabled fresh_enabled = true
  ∧ topic_property_ fresh_enabled = ""
  ∧ subscription_active <$> returned (onEnable nh_open fresh_enabled) = Some false
  ∧ (λ s, statuses s !! "Topic") <$> returned (onEnable nh_open fresh_enabled)
    = Some (Some (Ok, "OK")).
Proof. split_and!; reflexivity. Qed.

(** C4 at work: the running display is moved to topic ["/cloud"]. *)
Lemma topic_change_running :
  isEnabled (running 3) = true
  ∧ context_ (running 3) = true
  ∧ filter_active (running 3) = true
  ∧ ∃ s', setTopic nh_open "/cloud" "" (running 3) = Done s'
          ∧ topic_property_ s' = "/cloud"
          ∧ sub_calls (issued (running 3) s')
            = [SubUnsubscribe; SubSubscribe "/cloud" 10 Reliable]
          ∧ sub_ s' = Some {| sub_topic := "/cloud"; sub_queue_size := 10;
                              sub_hints := Reliable |}.
Proof.
  split; [reflexivity|]. split; [reflexivity|]. split; [reflexivity|].
  destruct (topic_change_resubscribes_once nh_open (running 3) "/cloud" "" true
              eq_refl eq_refl eq_refl)
    as (_ & (s' & Hrun & Ht & Hcalls & Hsub & _) & _).
  exists s'. split; [exact Hrun|]. split; [exact Ht|]. split; [exact Hcalls|].
  apply Hsub; [discriminate|reflexivity].
Defined.

(** C5 at work: the fixed frame of the running display changes. *)
Lemma fixedFrameChanged_running :
  filter_active (running 3) = true
  ∧ ∃ s', fixedFrameChanged (set_fixed_frame "odom" (running 3)) = Done s'
          ∧ filter_buffer s' = []
          ∧ messages_received_ s' = 0
          ∧ sub_ s' = sub_ (running 3).
Proof.
  split; [reflexivity|].
  destruct (fixedFrameChanged_keeps_subscription (set_fixed_frame "odom" (running 3))
              eq_refl) as (s' & Hrun & Hbuf & _ & Hn & Hsub & _).
  exists s'. split; [exact Hrun|]. split; [exact Hbuf|]. split; [exact Hn|exact Hsub].
Defined.

(** C6 at work: the node handle refuses the subscription. *)
Lemma subscribe_refused_running :
  ∃ s', subscribe nh_refuse (running 3) = Done s'
        ∧ statuses s' !! "Topic" = Some (Error, "Error subscribing: no master")
        ∧ sub_ s' = None
        ∧ messages_received_ s' = 3.
Proof.
  destruct (subscribe_reports_failure_locally nh_refuse (running 3))
    as (s' & Hrun & Hcase).
  destruct (Hcase eq_refl) as (Hst & _ & Hsub & _ & Hn & _).
  exists s'. split; [exact Hrun|]. split; [|split; [exact Hsub|exact Hn]].
  rewrite Hst. reflexivity.
Defined.

(** C7 at work: the display right after initialization is reachable. *)
Lemma fresh_reachable : reachable fresh.
Proof. exists [], "map", []. reflexivity. Defined.

Lemma filter_outlives_subscription_fresh :
  reachable fresh
  ∧ filter_active fresh = true
  ∧ ∃ s', MessageFilterDisplay_delete fresh = Done s'
          ∧ subscription_active s' = false
          ∧ filter_active s' = false.
Proof.
  split; [exact fresh_reachable|].
  destruct (filter_outlives_subscription nh_open fresh fresh_reachable)
    as (Hf & _ & _ & _ & Hdel).
  split; [exact Hf|exact Hdel].
Defined.

(** C7, as stated, fails right after initialization: the filter is active
    and the subscription is not. *)
Lemma filter_active_without_subscription :
  reachable fresh
  ∧ filter_active fresh = true
  ∧ subscription_active fresh = false
  ∧ both_or_neither fresh = false.
Proof. split; [exists [], "map", []; reflexivity|]. repeat split. Qed.

(** C8 at work: enabling and three deliveries, one of them null. *)
Lemma count_grows_running :
  Forall (λ st : NodeHandle * Op nat, resets st.2 = false)
    [(nh_open, Enable); (nh_open, Deliver (Some 1%nat));
     (nh_refuse, Deliver None); (nh_open, Deliver (Some 2%nat))]
  ∧ messages_received_ (running 40) + 2 < 2 ^ 32
  ∧ ∃ s', lifecycle [(nh_open, Enable); (nh_open, Deliver (Some 1%nat));
                     (nh_refuse, Deliver None); (nh_open, Deliver (Some 2%nat))]
            (running 40) = Done s'
          ∧ messages_received_ s' = 42.
Proof.
  assert (Hall : Forall (λ st : NodeHandle * Op nat, resets st.2 = false)
                   [(nh_open, Enable); (nh_open, Deliver (Some 1%nat));
                    (nh_refuse, Deliver None); (nh_open, Deliver (Some 2%nat))])
    by (repeat constructor).
  split; [exact Hall|]. split; [reflexivity|].
  destruct (count_grows_between_resets _ (running 40) Hall eq_refl)
    as (s' & Hrun & Hn & _).
  exists s'. split; [exact Hrun|exact Hn].
Defined.

(** C8, as stated, fails at the top of the counter: a delivery, which does
    not reset, takes [messages_received_] from 4294967295 down to 0. *)
Lemma count_drops_without_reset :
  resets (Deliver (Some 5%nat)) = false
  ∧ messages_received_
      <$> returned (lifecycle [(nh_open, Deliver (Some 5%nat))] (running 4294967295))
    = Some 0
  ∧ 0 < messages_received_ (running 4294967295).
Proof. repeat split. Qed.

(** C9 at work: [subscribe] on the stopped display. *)
Lemma subscribe_stopped :
  isEnabled (stopped 3) = false
  ∧ ∃ s', subscribe nh_open (stopped 3) = Done s'
          ∧ s' = stopped 3
          ∧ issued (stopped 3) s' = []
          ∧ sub_ s' = sub_ (stopped 3)
          ∧ statuses s' = statuses (stopped 3).
Proof.
  split; [reflexivity|].
  exact (subscribe_disabled_noop nh_open (stopped 3) eq_refl).
Defined.

(** C10 at work: [updateTopic] on the running display, whose filter holds
    back a message and which has counted 3. *)
Lemma updateTopic_running :
  context_ (running 3) = true
  ∧ filter_active (running 3) = true
  ∧ filter_buffer (running 3) = [7%nat]
  ∧ ∃ s', updateTopic nh_open (running 3) = Done s'
          ∧ filter_buffer s' = []
          ∧ messages_received_ s' = 0.
Proof.
  split; [reflexivity|]. split; [reflexivity|]. split; [reflexivity|].
  destruct (updateTopic_clears_and_resets nh_open (running 3) "" "" false
              eq_refl eq_refl) as ((s' & Hrun & Hbuf & _ & Hn & _) & _).
  exists s'. split; [exact Hrun|]. split; [exact Hbuf|exact Hn].
Defined.

(** * The further properties at work on the concrete display *)

(** X1 at work: a display that has only been constructed. *)
Lemma reset_before_initialize :
  tf_filter_ constructed = None
  ∧ reset constructed = Fault
  ∧ updateTopic nh_open constructed = Fault.
Proof.
  split; [reflexivity|].
  destruct (reset_needs_the_filter nh_open constructed
              (Some 1%nat) eq_refl) as (Hr & _ & Hu & _).
  split; [exact Hr|exact Hu].
Defined.

(** X2 at work: the running display is destroyed. *)
Lemma destructor_running :
  ∃ s', MessageFilterDisplay_delete (running 3) = Done s'
        ∧ sub_ s' = None
        ∧ tf_filter_ s' = None
        ∧ issued (running 3) s' = [SubUnsubscribe; FilterDelete].
Proof.
  destruct (destructor_releases_both (running 3)) as (s' & Hrun & Hs & Hf & Hl & _).
  exists s'. split_and!; assumption.
Defined.

(** X3 at work: a message reaches the stopped display. *)
Lemma incomingMessage_stopped :
  ∃ s', incomingMessage (Some 5%nat) (stopped 3) = Done s'
        ∧ isEnabled s' = false
        ∧ sub_ s' = sub_ (stopped 3)
        ∧ issued (stopped 3) s'
          = [SetStatus Ok "Topic" "4 messages received"; ProcessMessage 5%nat].
Proof.
  destruct (incomingMessage_delivery_frame (stopped 3) 5%nat)
    as (s' & Hrun & Hl & Hs & _ & He & _).
  exists s'. split_and!; assumption.
Defined.

(** X4 at work: enable and disable, with a node handle that refuses. *)
Lemma enable_then_disable_running :
  isEnabled (running 3) = true
  ∧ filter_active (running 3) = true
  ∧ ∃ s', andThen (onEnable nh_refuse) onDisable (running 3) = Done s'
          ∧ sub_ s' = None
          ∧ sub_calls (issued (running 3) s')
            = [SubSubscribe "/scan" 10 Reliable; SubUnsubscribe].
Proof.
  split; [reflexivity|]. split; [reflexivity|].
  destruct (enable_then_disable_leaves_nothing_open nh_refuse (running 3)
              eq_refl eq_refl) as (s' & Hrun & Hs & Hl & _).
  exists s'. split_and!; assumption.
Defined.

(** X5 at work: refused first, opened on the second attempt. *)
Lemma resubscribing_recovers_running :
  isEnabled (running 3) = true
  ∧ context_ (running 3) = true
  ∧ filter_active (running 3) = true
  ∧ topic_property_ (running 3) ≠ ""
  ∧ nh_open "/scan" Reliable = None
  ∧ ∃ s', andThen (updateTopic nh_refuse) (updateTopic nh_open) (running 3) = Done s'
          ∧ sub_ s' = Some (wanted (running 3))
          ∧ statuses s' !! "Topic" = Some (Ok, "OK").
Proof.
  assert (Hne : topic_property_ (running 3) ≠ "") by discriminate.
  split_and!; try reflexivity; [exact Hne|].
  destruct (resubscribing_recovers nh_refuse nh_open (running 3)
              eq_refl eq_refl eq_refl Hne eq_refl) as (s' & Hrun & Hs & Hst & _).
  exists s'. split_and!; assumption.
Defined.


Lemma filter_targets_fixed_frame_fresh :
  reachable fresh
  ∧ ∃ f, tf_filter_ fresh = Some f
         ∧ target_frame f = "map"
         ∧ filter_queue_size f = 10.
Proof.
  split; [exact fresh_reachable|].
  exact (filter_targets_fixed_frame fresh fresh_reachable).
Defined.

Lemma running_initialized : initialized (running 3).
Proof. split; reflexivity. Defined.

(** X8 at work: two messages around a topic change and a null pointer. *)
Lemma deliveries_forwarded_running :
  initialized (running 3)
  ∧ ∃ s', lifecycle [(nh_open, Deliver (Some 1%nat)); (nh_refuse, ChangeTopic "/cloud");
                     (nh_open, Deliver None); (nh_open, Deliver (Some 2%nat))]
            (running 3) = Done s'
          ∧ handled (issued (running 3) s') = [1%nat; 2%nat]
          ∧ derived s' = [1%nat; 2%nat].
Proof.
  split; [exact running_initialized|].
  exact (deliveries_forwarded_in_order
           [(nh_open, Deliver (Some 1%nat)); (nh_refuse, ChangeTopic "/cloud");
            (nh_open, Deliver None); (nh_open, Deliver (Some 2%nat))]
           (running 3) running_initialized).
Defined.

(** X9 at work: two deliveries at the top of the counter. *)
Lemma count_modulo_running :
  Forall (λ st : NodeHandle * Op nat, resets st.2 = false)
    [(nh_open, Deliver (Some 1%nat)); (nh_open, Deliver (Some 2%nat))]
  ∧ messages_received_ (running 4294967295) < 2 ^ 32
  ∧ ∃ s', lifecycle [(nh_open, Deliver (Some 1%nat)); (nh_open, Deliver (Some 2%nat))]
            (running 4294967295) = Done s'
          ∧ messages_received_ s' = 1.
Proof.
  assert (Hall : Forall (λ st : NodeHandle * Op nat, resets st.2 = false)
                   [(nh_open, Deliver (Some 1%nat)); (nh_open, Deliver (Some 2%nat))])
    by (repeat constructor).
  split; [exact Hall|]. split; [reflexivity|].
  destruct (count_modulo_between_resets _ (running 4294967295) Hall eq_refl)
    as (s' & Hrun & Hn & _).
  exists s'. split; [exact Hrun|exact Hn].
Defined.

(** X10 at work: a delivery, a frame change, then two deliveries. *)
Lemma count_since_last_reset_running :
  initialized (running 3)
  ∧ resets (ChangeFixedFrame "odom" : Op nat) = true
  ∧ Forall (λ st : NodeHandle * Op nat, resets st.2 = false)
      [(nh_open, Deliver (Some 1%nat)); (nh_open, Deliver (Some 2%nat))]
  ∧ ∃ s', lifecycle ([(nh_open, Deliver (Some 9%nat))]
                     ++ (nh_open, ChangeFixedFrame "odom")
                        :: [(nh_open, Deliver (Some 1%nat)); (nh_open, Deliver (Some 2%nat))])
            (running 3) = Done s'
          ∧ messages_received_ s' = 2.
Proof.
  assert (Hall : Forall (λ st : NodeHandle * Op nat, resets st.2 = false)
                   [(nh_open, Deliver (Some 1%nat)); (nh_open, Deliver (Some 2%nat))])
    by (repeat constructor).
  split; [exact running_initialized|]. split; [reflexivity|]. split; [exact Hall|].
  exact (count_since_last_reset [(nh_open, Deliver (Some 9%nat))] _ nh_open
           (ChangeFixedFrame "odom") (running 3) running_initialized eq_refl Hall).
Defined.

(** X11 at work: the freshly initialized display is reconfigured but never
    enabled. *)
Lemma disabled_display_never_subscribes_fresh :
  reachable fresh
  ∧ isEnabled fresh = false
  ∧ Forall (λ st : NodeHandle * Op nat, is_enable st.2 = false)
      [(nh_open, ChangeTopic "/scan"); (nh_open, ChangeReliability true);
       (nh_open, Deliver (Some 1%nat)); (nh_open, Disable)]
  ∧ ∃ s', lifecycle [(nh_open, ChangeTopic "/scan"); (nh_open, ChangeReliability true);
                     (nh_open, Deliver (Some 1%nat)); (nh_open, Disable)] fresh = Done s'
          ∧ List.filter is_subscribe (issued fresh s') = []
          ∧ sub_ s' = None.
Proof.
  assert (Hall : Forall (λ st : NodeHandle * Op nat, is_enable st.2 = false)
                   [(nh_open, ChangeTopic "/scan"); (nh_open, ChangeReliability true);
                    (nh_open, Deliver (Some 1%nat)); (nh_open, Disable)])
    by (repeat constructor).
  split; [exact fresh_reachable|]. split; [reflexivity|]. split; [exact Hall|].
  destruct (disabled_display_never_subscribes _ fresh fresh_reachable eq_refl Hall)
    as (s' & Hrun & _ & Hl & Hs).
  exists s'. split_and!; assumption.
Defined.

(** X12 at work: the same run with a willing and with a refusing node
    handle. *)
Lemma node_handle_cannot_disturb_running :
  initialized (running 3)
  ∧ [(nh_open, ChangeTopic "/cloud" : Op nat); (nh_open, Deliver (Some 1%nat))].*2
    = [(nh_refuse, ChangeTopic "/cloud" : Op nat); (nh_refuse, Deliver (Some 1%nat))].*2
  ∧ ∃ s1 s2,
      lifecycle [(nh_open, ChangeTopic "/cloud"); (nh_open, Deliver (Some 1%nat))]
        (running 3) = Done s1
      ∧ lifecycle [(nh_refuse, ChangeTopic "/cloud"); (nh_refuse, Deliver (Some 1%nat))]
          (running 3) = Done s2
      ∧ messages_received_ s1 = messages_received_ s2
      ∧ derived s1 = derived s2.
Proof.
  split; [exact running_initialized|]. split; [reflexivity|].
  destruct (node_handle_cannot_disturb_delivery
              [(nh_open, ChangeTopic "/cloud"); (nh_open, Deliver (Some 1%nat))]
              [(nh_refuse, ChangeTopic "/cloud"); (nh_refuse, Deliver (Some 1%nat))]
              (running 3) running_initialized eq_refl)
    as (s1 & s2 & H1 & H2 & Hn & _ & Hd & _).
  exists s1, s2. split_and!; assumption.
Defined.
